(** * LAZ converter: decode, validate and export point coordinates

    A shallow embedding of [streamlit_app.py].  The script reads a LAZ
    file (uploaded, or fetched from a URL), takes the three coordinate
    arrays of the decoded point records, checks that they have the same
    length and offers them for download as a CSV table or as an XYZ text.

    Conventions of the embedding:
    - a Python [str] is a Rocq [string] holding its UTF-8 bytes, so that
      [s.encode("utf-8")] is the list of the bytes of [s];
    - Python [bytes] are [list byte];
    - a numpy [float64] is a [spec_float] of the IEEE 754 binary64 format
      (53 bits of precision, exponents up to 1024);
    - the widgets of Streamlit are events of a trace, exceptions are the
      left summand of the result;
    - the libraries the script calls and that read the outside world
      ([laspy.read], [requests.get], [pip]) are variables of a section. *)

From Stdlib Require Import ZArith List String Ascii Bool Lia QArith Qabs.
From Stdlib.Strings Require Import Byte.
From Stdlib Require Import Floats.SpecFloat.
Import ListNotations.

Local Open Scope string_scope.
Local Open Scope Z_scope.

(** ** Text *)

Module Text.

(** [sub in s] of Python. *)
Fixpoint contains (sub s : string) : bool :=
  if prefix sub s then true
  else match s with
       | EmptyString => false
       | String _ t => contains sub t
       end.

(** [s.replace(old, new)]: every occurrence of [old], scanning from the
    left and without overlap.  [skip] counts the characters of a matched
    occurrence that are still to be dropped. *)
Fixpoint replace_from (old new : string) (skip : nat) (s : string) : string :=
  match s with
  | EmptyString => EmptyString
  | String c t =>
      match skip with
      | S k => replace_from old new k t
      | O => if prefix old s
             then new ++ replace_from old new (String.length old - 1) t
             else String c (replace_from old new 0 t)
      end
  end.

Fixpoint intersperse (new s : string) : string :=
  match s with
  | EmptyString => new
  | String c t => new ++ String c (intersperse new t)
  end.

Definition replace (s old new : string) : string :=
  match old with
  | EmptyString => intersperse new s
  | _ => replace_from old new 0 s
  end.

(** [sep.join(parts)]. *)
Fixpoint join (sep : string) (parts : list string) : string :=
  match parts with
  | [] => ""
  | [p] => p
  | p :: rest => p ++ sep ++ join sep rest
  end.

(** [s.split(c)] for a separator of one character. *)
Fixpoint split (c : ascii) (s : string) : list string :=
  match s with
  | EmptyString => [""]
  | String a t =>
      if Ascii.eqb a c then "" :: split c t
      else match split c t with
           | [] => [String a ""]
           | w :: ws => String a w :: ws
           end
  end.

(** ASCII lower case, the effect of [lower()] on the letters that matter
    for the comparisons of the script. *)
Definition lower_nat (n : nat) : nat :=
  if (65 <=? n)%nat && (n <=? 90)%nat then (n + 32)%nat else n.

Definition lower_ascii (a : ascii) : ascii := ascii_of_nat (lower_nat (nat_of_ascii a)).

Fixpoint lower (s : string) : string :=
  match s with
  | EmptyString => EmptyString
  | String a t => String (lower_ascii a) (lower t)
  end.

Definition lower_byte (b : byte) : byte := byte_of_ascii (lower_ascii (ascii_of_byte b)).

(** [data.lower()] on bytes. *)
Definition lower_bytes (data : list byte) : list byte := map lower_byte data.

(** [data.startswith(p)] on bytes. *)
Fixpoint startswith (p data : list byte) : bool :=
  match p, data with
  | [], _ => true
  | _ :: _, [] => false
  | a :: p', b :: data' => Byte.eqb a b && startswith p' data'
  end.

(** [s[:n]] on a [str]: the first [n] code points.  In UTF-8 a code point
    starts at every byte that is not a continuation byte (10xxxxxx). *)
Definition is_continuation (a : ascii) : bool :=
  let n := nat_of_ascii a in (128 <=? n)%nat && (n <? 192)%nat.

Fixpoint str_take (n : nat) (s : string) : string :=
  match s with
  | EmptyString => EmptyString
  | String a t =>
      if is_continuation a then String a (str_take n t)
      else match n with
           | O => EmptyString
           | S k => String a (str_take k t)
           end
  end.

(** [s.encode("utf-8")]. *)
Definition encode_utf8 (s : string) : list byte := list_byte_of_string s.

End Text.

(** ** Decimal numerals *)

Module Numeral.

Definition digit_char (d : Z) : ascii := ascii_of_nat (48 + Z.to_nat d).

Definition digit_value (c : ascii) : option Z :=
  let n := nat_of_ascii c in
  if (48 <=? n)%nat && (n <=? 57)%nat then Some (Z.of_nat (n - 48)) else None.

(** The digits of [n], most significant first; [fuel] bounds the number
    of digits. *)
Fixpoint digits_fuel (fuel : nat) (n : Z) (acc : list ascii) : list ascii :=
  match fuel with
  | O => acc
  | S f =>
      let acc' := digit_char (n mod 10) :: acc in
      if n / 10 =? 0 then acc' else digits_fuel f (n / 10) acc'
  end.

Definition digits (n : Z) : list ascii :=
  match n with
  | Zpos p => digits_fuel (Pos.size_nat p) n []
  | _ => ["0"%char]
  end.

(** [str(n)] for a natural number. *)
Definition decimal (n : Z) : string := string_of_list_ascii (digits n).

(** The number a list of digits denotes, continuing from [acc]. *)
Fixpoint digits_value (acc : Z) (l : list ascii) : option Z :=
  match l with
  | [] => Some acc
  | c :: t =>
      match digit_value c with
      | Some d => digits_value (10 * acc + d) t
      | None => None
      end
  end.

Definition zeros (n : nat) : list ascii := repeat "0"%char n.

(** Left padding with zeros to at least [w] characters. *)
Definition pad_left (w : nat) (l : list ascii) : list ascii :=
  zeros (w - List.length l) ++ l.

(** Groups of three digits separated by commas, from the right: the
    [,] option of the format language. *)
Fixpoint group3 (rev_digits : list ascii) : list ascii :=
  match rev_digits with
  | a :: b :: c :: ((_ :: _) as rest) => a :: b :: c :: ","%char :: group3 rest
  | l => l
  end.

(** [f"{n:,}"] for a length. *)
Definition format_thousands (n : nat) : string :=
  string_of_list_ascii (rev (group3 (rev (digits (Z.of_nat n))))).

End Numeral.

(** ** Binary64 numbers and their decimal texts *)

Module Float64.

(** A numpy [float64]. *)
Definition float64 : Type := spec_float.

Definition prec : Z := 53.
Definition emax : Z := 1024.

(** The values of the format: a finite one has its canonical mantissa and
    exponent. *)
Definition valid (f : float64) : bool := valid_binary prec emax f.

Definition is_finite (f : float64) : bool :=
  match f with
  | S754_zero _ | S754_finite _ _ _ => true
  | S754_infinity _ | S754_nan => false
  end.

(** Structural equality: same sign, mantissa and exponent. *)
Definition same (f g : float64) : bool :=
  match f, g with
  | S754_zero s, S754_zero s' => Bool.eqb s s'
  | S754_infinity s, S754_infinity s' => Bool.eqb s s'
  | S754_nan, S754_nan => true
  | S754_finite s m e, S754_finite s' m' e' => Bool.eqb s s' && Pos.eqb m m' && Z.eqb e e'
  | _, _ => false
  end.

(** The integer nearest to [a / b], a tie going to the even one
    ([0 <= a], [0 < b]). *)
Definition round_half_even (a b : Z) : Z :=
  let q := a / b in
  match 2 * (a mod b) ?= b with
  | Lt => q
  | Gt => q + 1
  | Eq => if Z.even q then q else q + 1
  end.

(** [m * 2^e * 10^p] as a fraction. *)
Definition scaled (m : positive) (e p : Z) : Z * Z :=
  let num := if 0 <=? e then Zpos m * 2 ^ e else Zpos m in
  let den := if 0 <=? e then 1 else 2 ^ (- e) in
  if 0 <=? p then (num * 10 ^ p, den) else (num, den * 10 ^ (- p)).

Definition sign_text (s : bool) : list ascii := if s then ["-"%char] else [].

(** *** Fixed notation: [format(x, ".pf")]

    The exact value is rounded to [p] decimals, ties to even; the special
    values are spelled out. *)
Definition fixed_digits (p : nat) (q : Z) : list ascii :=
  let unit := 10 ^ Z.of_nat p in
  Numeral.digits (q / unit) ++
  match p with
  | O => []
  | _ => "."%char :: Numeral.pad_left p (Numeral.digits (q mod unit))
  end.

Definition format_fixed (p : nat) (f : float64) : string :=
  string_of_list_ascii
    match f with
    | S754_nan => list_ascii_of_string "nan"
    | S754_infinity s => sign_text s ++ list_ascii_of_string "inf"
    | S754_zero s => sign_text s ++ fixed_digits p 0
    | S754_finite s m e =>
        let '(a, b) := scaled m e (Z.of_nat p) in
        sign_text s ++ fixed_digits p (round_half_even a b)
    end.

(** [f"{x:.3f}"]. *)
Definition format_3f (x : float64) : string := format_fixed 3 x.

(** *** From a decimal to the nearest binary64 *)

(** [floor (log2 (n / d))] for [0 < n], [0 < d]. *)
Definition binade (n d : Z) : Z :=
  let l := Z.log2 n - Z.log2 d in
  if (if 0 <=? l then d * 2 ^ l <=? n else d <=? n * 2 ^ (- l)) then l else l - 1.

(** The binary64 nearest to [n / d], ties to even mantissa, overflowing to
    infinity ([0 <= n], [0 < d]). *)
Definition round_ratio (s : bool) (n d : Z) : float64 :=
  if n =? 0 then S754_zero s
  else
    let e := Z.max (binade n d - 52) (-1074) in
    let m := if 0 <=? e then round_half_even n (d * 2 ^ e)
             else round_half_even (n * 2 ^ (- e)) d in
    let '(m, e) := if m =? 2 ^ 53 then (2 ^ 52, e + 1) else (m, e) in
    match m with
    | Zpos p => if e <=? 971 then S754_finite s p e else S754_infinity s
    | _ => S754_zero s
    end.

(** The value [d * 10^k] of a decimal. *)
Definition decimal_value (d k : Z) : Q :=
  if 0 <=? k then Qmake (d * 10 ^ k) 1 else Qmake d (Z.to_pos (10 ^ (- k))).

Definition round_Q (s : bool) (q : Q) : float64 :=
  let r := Qred q in round_ratio s (Qnum r) (Zpos (Qden r)).

Definition round_decimal (s : bool) (d k : Z) : float64 := round_Q s (decimal_value d k).

(** *** The shortest decimal that reads back: [repr(x)], [str(x)]

    For a positive finite [n / d]: the fewest digits [c] (at most 17) and
    the exponent [k] such that [c * 10^k] rounds to the number, and among
    the decimals of that length the one nearest to it. *)

(** [10^t <= n / d]. *)
Definition pow10_le (t n d : Z) : bool :=
  if 0 <=? t then d * 10 ^ t <=? n else d <=? n * 10 ^ (- t).

(** [floor (log10 (n / d))], searched downwards from [t]. *)
Fixpoint floor_log10_from (fuel : nat) (t n d : Z) : Z :=
  match fuel with
  | O => t
  | S f => if pow10_le t n d then t else floor_log10_from f (t - 1) n d
  end.

Definition floor_log10 (n d : Z) : Z := floor_log10_from 632 308 n d.

(** [(n / d) / 10^k] as a fraction. *)
Definition over_pow10 (k n d : Z) : Z * Z :=
  if 0 <=? k then (n, d * 10 ^ k) else (n * 10 ^ (- k), d).

Fixpoint shortest_from (fuel : nat) (len : Z) (t n d : Z) (x : float64) : Z * Z :=
  let k := t - (len - 1) in
  let '(a, b) := over_pow10 k n d in
  match fuel with
  | O => (round_half_even a b, k)
  | S f =>
      let lo := a / b in
      match same (round_decimal false lo k) x, same (round_decimal false (lo + 1) k) x with
      | true, true => (round_half_even a b, k)
      | true, false => (lo, k)
      | false, true => (lo + 1, k)
      | false, false => shortest_from f (len + 1) t n d x
      end
  end.

(** Trailing zeros of the digits move into the exponent. *)
Fixpoint strip_zeros (fuel : nat) (c k : Z) : Z * Z :=
  match fuel with
  | O => (c, k)
  | S f => if (c mod 10 =? 0) && negb (c =? 0) then strip_zeros f (c / 10) (k + 1) else (c, k)
  end.

Definition shortest_decimal (m : positive) (e : Z) : Z * Z :=
  let '(n, d) := scaled m e 0 in
  let '(c, k) := shortest_from 16 1 (floor_log10 n d) n d (S754_finite false m e) in
  strip_zeros 17 c k.

(** The text of the decimal [c * 10^k]: fixed notation when the decimal
    point falls within [-4 < decpt <= 16], scientific notation
    otherwise, as [repr] writes it. *)
Definition decimal_text (c k : Z) : list ascii :=
  let ds := Numeral.digits c in
  let len := Z.of_nat (List.length ds) in
  let decpt := len + k in
  if (-4 <? decpt) && (decpt <=? 16) then
    if decpt <=? 0 then
      "0"%char :: "."%char :: Numeral.zeros (Z.to_nat (- decpt)) ++ ds
    else if decpt <? len then
      firstn (Z.to_nat decpt) ds ++ "."%char :: skipn (Z.to_nat decpt) ds
    else
      ds ++ Numeral.zeros (Z.to_nat (decpt - len)) ++ ["."%char; "0"%char]
  else
    let x := decpt - 1 in
    firstn 1 ds ++
    match skipn 1 ds with
    | [] => []
    | frac => "."%char :: frac
    end ++
    "e"%char :: (if x <? 0 then "-"%char else "+"%char) ::
    Numeral.pad_left 2 (Numeral.digits (Z.abs x)).

(** [repr(x)], which is also what numpy writes when a [float64] array is
    cast to [str]. *)
Definition repr (x : float64) : string :=
  string_of_list_ascii
    match x with
    | S754_nan => list_ascii_of_string "nan"
    | S754_infinity s => sign_text s ++ list_ascii_of_string "inf"
    | S754_zero s => sign_text s ++ list_ascii_of_string "0.0"
    | S754_finite s m e =>
        let '(c, k) := shortest_decimal m e in sign_text s ++ decimal_text c k
    end.

(** *** Reading a decimal text: [float(s)] *)

(** The text before the first [c], and the text after it if [c] occurs. *)
Fixpoint cut (c : ascii) (l : list ascii) : list ascii * option (list ascii) :=
  match l with
  | [] => ([], None)
  | a :: t =>
      if Ascii.eqb a c then ([], Some t)
      else let '(u, v) := cut c t in (a :: u, v)
  end.

(** A signed integer, the exponent of the scientific notation. *)
Definition parse_exponent (l : list ascii) : option Z :=
  match l with
  | [] => None
  | a :: t =>
      if Ascii.eqb a "-"%char then
        match t with [] => None | _ => option_map Z.opp (Numeral.digits_value 0 t) end
      else if Ascii.eqb a "+"%char then
        match t with [] => None | _ => Numeral.digits_value 0 t end
      else Numeral.digits_value 0 l
  end.

(** Digits, an optional fraction and an optional exponent: the decimal
    [(c, k)] that the text denotes. *)
Definition parse_decimal (l : list ascii) : option (Z * Z) :=
  let '(mant, expo) := cut "e"%char l in
  let '(ip, fp) := cut "."%char mant in
  let fp := match fp with Some f => f | None => [] end in
  match (ip ++ fp)%list with
  | [] => None
  | ds =>
      match Numeral.digits_value 0 ds, match expo with Some x => parse_exponent x | None => Some 0 end with
      | Some c, Some x => Some (c, x - Z.of_nat (List.length fp))
      | _, _ => None
      end
  end.

Definition parse_unsigned (s : bool) (l : list ascii) : option float64 :=
  if String.eqb (string_of_list_ascii l) "inf" then Some (S754_infinity s)
  else if String.eqb (string_of_list_ascii l) "nan" then Some S754_nan
  else match parse_decimal l with
       | Some (c, k) => Some (round_decimal s c k)
       | None => None
       end.

(** [float(s)] for the texts without blanks. *)
Definition parse (s : string) : option float64 :=
  match list_ascii_of_string s with
  | [] => None
  | a :: t =>
      if Ascii.eqb a "-"%char then parse_unsigned true t
      else parse_unsigned false (a :: t)
  end.

End Float64.

(** ** The libraries of the script *)

Module Lib.

Import Float64.

Definition LF : string := String "010"%char "".

(** *** Exceptions *)

Inductive exn_class : Type :=
| ValueError
| RuntimeError
| NameError
| HTTPError                      (* requests.HTTPError *)
| OtherException (name : string). (* any other subclass of Exception *)

(** An exception and [str(e)]. *)
Record exn : Type := Exn { exn_class_of : exn_class; exn_msg : string }.

(** *** numpy and laspy *)

(** What [np.asarray] makes of a field of the decoded file: an array of
    one dimension, or an array of no dimension when the field is a bare
    number. *)
Inductive ndarray : Type :=
| Scalar (v : float64)
| Vector (l : list float64).

(** [np.atleast_1d]. *)
Definition atleast_1d (a : ndarray) : list float64 :=
  match a with
  | Scalar v => [v]
  | Vector l => l
  end.

(** The object [laspy.read] returns, seen through [np.asarray(las.x)],
    [np.asarray(las.y)] and [np.asarray(las.z)]. *)
Record las_data : Type := Las { las_x : ndarray; las_y : ndarray; las_z : ndarray }.

(** The rows of [np.column_stack((x, y, z))] and of
    [pd.DataFrame({"X": x, "Y": y, "Z": z})].  Both are reached only
    after the script has checked that the three lengths agree. *)
Fixpoint rows (x y z : list float64) : list (float64 * float64 * float64) :=
  match x, y, z with
  | a :: x', b :: y', c :: z' => (a, b, c) :: rows x' y' z'
  | _, _, _ => []
  end.

Definition column_stack := rows.

(** *** pandas *)

Definition DataFrame := rows.

(** A cell of a float column: numpy's cast to [str], a missing value
    (NaN) as the empty [na_rep]. *)
Definition csv_cell (v : float64) : string :=
  match v with
  | S754_nan => ""
  | _ => repr v
  end.

Definition csv_row (r : float64 * float64 * float64) : string :=
  let '(a, b, c) := r in
  csv_cell a ++ "," ++ csv_cell b ++ "," ++ csv_cell c ++ LF.

(** [df.to_csv(index=False)]: the header, then a line per row, each
    ended by the line terminator (that of POSIX). *)
Definition to_csv (df : list (float64 * float64 * float64)) : string :=
  "X,Y,Z" ++ LF ++ String.concat "" (map csv_row df).

(** *** requests *)

Record request : Type := Request {
  req_url : string;
  req_headers : option (list (string * string));
  req_auth : option (string * string);
  req_stream : bool;
  req_timeout : Z;
  req_allow_redirects : bool
}.

Record response : Type := Response {
  status_code : N;
  reason : string;
  text : string;
  content : list byte;
  content_type_header : option string   (* r.headers.get("content-type") *)
}.

(** *** streamlit *)

Record uploaded_file : Type := Uploaded { name : string; file_bytes : list byte }.

Inductive output_format : Type := CSV | XYZ.

Inductive auth_choice : Type := NoAuth | BearerToken | BasicAuth.

(** What a run shows, in order.  The calls of the decoder and of the
    installer are part of the trace. *)
Inductive event : Type :=
| st_spinner (text : string)
| st_success (body : string)
| st_error (body : string)
| st_info (body : string)
| st_write (body : string)
| st_write_decoded (raw : list byte)  (* st.write(raw.decode("utf-8", errors="replace")) *)
| st_download_button (label : string) (data : list byte) (file_name mime : string)
| laspy_read_call (data : list byte)
| pip_install_call (package : string).

(** *** Runs: a trace and a value or an exception *)

Definition run (A : Type) : Type := list event * (exn + A).

Definition ret {A} (a : A) : run A := ([], inr a).

Definition bind {A B} (m : run A) (k : A -> run B) : run B :=
  match m with
  | (t, inl e) => (t, inl e)
  | (t, inr a) => let '(t', r) := k a in (t ++ t', r)%list
  end.

Definition emit (ev : event) : run unit := ([ev], inr tt).

Definition raise {A} (e : exn) : run A := ([], inl e).

(** [try: m  except ...: handler]. *)
Definition try_except {A} (m : run A) (handler : exn -> run A) : run A :=
  match m with
  | (t, inl e) => let '(t', r) := handler e in (t ++ t', r)%list
  | (t, inr a) => (t, inr a)
  end.

Definition trace {A} (m : run A) : list event := fst m.
Definition outcome {A} (m : run A) : exn + A := snd m.

End Lib.

Declare Scope run_scope.
Delimit Scope run_scope with run.
Notation "x <- m ;; k" := (Lib.bind m (fun x => k))
  (at level 61, m at next level, right associativity) : run_scope.
Notation "m ;; k" := (Lib.bind m (fun _ => k))
  (at level 61, right associativity) : run_scope.

(** ** The script *)

Module App.

Import Text Numeral Float64 Lib.
Local Open Scope run_scope.

Section Script.

(** [laspy.read(io.BytesIO(data))]: the decoded file, or the exception
    of the decoder. *)
Variable laspy_read : list byte -> exn + las_data.

(** [requests.get]. *)
Variable requests_get : request -> exn + response.

(** [subprocess.check_call([sys.executable, "-m", "pip", "install",
    "lazrs"])]: [None] when the command succeeds, the text of the
    exception otherwise. *)
Variable pip_install_lazrs : option string.

Definition call_laspy_read (data : list byte) : run las_data :=
  emit (laspy_read_call data) ;;
  match laspy_read data with
  | inl e => raise e
  | inr las => ret las
  end.

(** [f"{a:.3f} {b:.3f} {c:.3f}"]. *)
Definition xyz_line (r : float64 * float64 * float64) : string :=
  let '(a, b, c) := r in
  format_3f a ++ " " ++ format_3f b ++ " " ++ format_3f c.

(** ["\n".join([... for a, b, c in xyz])]. *)
Definition xyz_str (xyz : list (float64 * float64 * float64)) : string :=
  join LF (map xyz_line xyz).

(** [not (len(x) == len(y) == len(z))]. *)
Definition mismatched (x y z : list float64) : bool :=
  negb ((List.length x =? List.length y)%nat && (List.length y =? List.length z)%nat).

(** *** Upload *)

(** The body of the [try] of the upload branch. *)
Definition upload_try (uploaded : uploaded_file) (fmt : output_format) : run unit :=
  emit (st_spinner "Reading LAZ file...") ;;
  las <- call_laspy_read (file_bytes uploaded) ;;
  let x := atleast_1d (las_x las) in
  let y := atleast_1d (las_y las) in
  let z := atleast_1d (las_z las) in
  if mismatched x y z then
    raise (Exn ValueError "Coordinate arrays have mismatched lengths")
  else
    emit (st_success ("Loaded " ++ format_thousands (List.length x) ++ " points successfully ✅")) ;;
    match fmt with
    | CSV =>
        let df := DataFrame x y z in
        let csv_bytes := encode_utf8 (to_csv df) in
        emit (st_download_button "📥 Download CSV file" csv_bytes
                (replace (name uploaded) ".laz" ".csv") "text/csv")
    | XYZ =>
        let xyz := column_stack x y z in
        let xyz_bytes := encode_utf8 (xyz_str xyz) in
        emit (st_download_button "📥 Download XYZ file" xyz_bytes
                (replace (name uploaded) ".laz" ".xyz") "text/plain")
    end.

Definition is_backend_message (msg : string) : bool :=
  contains "No LazBackend" msg || contains "cannot decompress" msg || contains "LazBackend" msg.

Definition install_advice : string :=
  "Install a LAZ backend such as `lazrs` (recommended) or `laszip`." ++ LF ++ LF ++
  "Recommended command:" ++ LF ++ "```" ++ LF ++ "python3 -m pip install lazrs" ++ LF ++ "```".

(** [except Exception as e] of the upload branch; [install_clicked] is
    the value of [st.button("Install lazrs now")]. *)
Definition upload_except (install_clicked : bool) (e : exn) : run unit :=
  let msg := exn_msg e in
  if is_backend_message msg then
    emit (st_error "LAZ backend not available — Streamlit can't decompress .laz data.") ;;
    emit (st_write install_advice) ;;
    if install_clicked then
      emit (st_spinner "Installing lazrs...") ;;
      emit (pip_install_call "lazrs") ;;
      match pip_install_lazrs with
      | Some ex =>
          emit (st_error ("Installation failed: " ++ ex)) ;;
          emit (st_write "Run the install command in your terminal if this fails.")
      | None =>
          emit (st_success "lazrs installed. Please restart the app (streamlit run streamlit_app.py).")
      end
    else ret tt
  else
    emit (st_error ("Error converting file: " ++ msg)).

(** [if uploaded_file is not None: ... else: ...]. *)
Definition upload_path (uploaded : option uploaded_file) (fmt : output_format)
    (install_clicked : bool) : run unit :=
  match uploaded with
  | Some f => try_except (upload_try f fmt) (upload_except install_clicked)
  | None => emit (st_info "Please upload a .laz file to start.")
  end.

(** *** URL *)

Record url_inputs : Type := UrlInputs {
  laz_url : string;
  auth_type : auth_choice;
  token : string;
  user : string;
  pwd : string
}.

Definition nonempty (s : string) : bool := negb (String.eqb s "").

Definition make_request (i : url_inputs) : request :=
  let headers :=
    match auth_type i with
    | BearerToken => if nonempty (token i) then [("Authorization", "Bearer " ++ token i)] else []
    | _ => []
    end in
  let auth :=
    match auth_type i with
    | BasicAuth => if nonempty (user i) || nonempty (pwd i) then Some (user i, pwd i) else None
    | _ => None
    end in
  Request (laz_url i) (match headers with [] => None | _ => Some headers end) auth true 120 true.

Definition bytes_of (s : string) : list byte := list_byte_of_string s.

(** The test on the first bytes and on the declared content type. *)
Definition looks_like_html (r : response) : bool :=
  let data := content r in
  let prefix := lower_bytes (firstn 8 data) in
  let content_type :=
    lower (match content_type_header r with Some v => v | None => "" end) in
  startswith (bytes_of "<!do") prefix || startswith (bytes_of "<html") prefix ||
  startswith (bytes_of "<?xml") prefix || contains "html" content_type.

(** The body of the [try] of the URL branch once [requests.get] has
    returned [r]. *)
Definition url_try (r : response) (fmt : output_format) : run unit :=
  if negb (status_code r =? 200)%N then
    emit (st_error ("HTTP " ++ decimal (Z.of_N (status_code r)) ++ ": " ++ reason r)) ;;
    emit (st_write (str_take 1000 (text r))) ;;
    raise (Exn RuntimeError ("HTTP " ++ decimal (Z.of_N (status_code r))))
  else
    let data := content r in
    if looks_like_html r then
      emit (st_error "URL returned HTML (likely an error/redirect page) instead of a .laz file.") ;;
      emit (st_write_decoded (firstn 500 data)) ;;
      raise (Exn RuntimeError "URL returned HTML")
    else
      las <- call_laspy_read data ;;
      let x := atleast_1d (las_x las) in
      let y := atleast_1d (las_y las) in
      let z := atleast_1d (las_z las) in
      if mismatched x y z then
        raise (Exn ValueError "Coordinate arrays have mismatched lengths")
      else
        emit (st_success ("Downloaded and loaded " ++ format_thousands (List.length x) ++ " points")) ;;
        match fmt with
        | CSV =>
            let df := DataFrame x y z in
            let csv_bytes := encode_utf8 (to_csv df) in
            emit (st_download_button "📥 Download CSV file" csv_bytes
                    "downloaded_file.csv" "text/csv")
        | XYZ =>
            let xyz := column_stack x y z in
            let xyz_bytes := encode_utf8 (xyz_str xyz) in
            emit (st_download_button "📥 Download XYZ file" xyz_bytes
                    "downloaded_file.xyz" "text/plain")
        end.

(** The two [except] clauses of the URL branch.  [r] is the response
    when [requests.get] has returned one; the first clause reads it. *)
Definition url_except (r : option response) (e : exn) : run unit :=
  match exn_class_of e with
  | HTTPError =>
      match r with
      | None => raise (Exn NameError "name 'r' is not defined")
      | Some r =>
          if (status_code r =? 401)%N then
            emit (st_error "401 Unauthorized: the URL requires credentials or a presigned URL.") ;;
            emit (st_info "Use a presigned URL (S3) or provide token/username+password above.")
          else
            emit (st_error ("HTTP error: " ++ decimal (Z.of_N (status_code r)) ++ " " ++ reason r))
      end
  | _ =>
      emit (st_error ("Failed to fetch/parse URL: " ++ exn_msg e)) ;;
      emit (st_info "Ensure the URL points directly to the .laz file (use presigned S3 URL, add ?dl=1 for Dropbox, or enable public GET).")
  end.

(** [if laz_url: ...]. *)
Definition url_path (i : url_inputs) (fmt : output_format) : run unit :=
  if nonempty (laz_url i) then
    emit (st_spinner "Downloading .laz from URL...") ;;
    match requests_get (make_request i) with
    | inl e => url_except None e
    | inr r => try_except (url_try r fmt) (url_except (Some r))
    end
  else ret tt.


End Script.

(** The download buttons of a trace. *)
Record exported_table : Type := Exported {
  table_data : list byte;
  table_mime : string;
  table_name : string
}.

Definition downloads (t : list event) : list exported_table :=
  flat_map (fun ev =>
    match ev with
    | st_download_button _ data file_name mime => [Exported data mime file_name]
    | _ => []
    end) t.

(** The data the decoder was called with. *)
Definition decoded (t : list event) : list (list byte) :=
  flat_map (fun ev =>
    match ev with
    | laspy_read_call data => [data]
    | _ => []
    end) t.

Definition errors_shown (t : list event) : list string :=
  flat_map (fun ev =>
    match ev with
    | st_error body => [body]
    | _ => []
    end) t.

End App.

(** ** Notions the properties are stated with *)

Module Spec.

Import Text Numeral Float64 Lib.

Definition is_digit (c : ascii) : bool :=
  let n := nat_of_ascii c in (48 <=? n)%nat && (n <=? 57)%nat.

(** A numeral with exactly three digits after the decimal point: an
    optional minus sign, at least one digit, a point, three digits. *)
Definition three_decimals (s : string) : bool :=
  let l := list_ascii_of_string s in
  let l := match l with
           | a :: t => if Ascii.eqb a "-"%char then t else l
           | [] => l
           end in
  match cut "."%char l with
  | (ip, Some fp) =>
      negb (List.length ip =? 0)%nat && forallb is_digit ip &&
      (List.length fp =? 3)%nat && forallb is_digit fp
  | (_, None) => false
  end.

(** The characters of the texts of numbers. *)
Definition numeric_char (c : ascii) : bool :=
  is_digit c || existsb (Ascii.eqb c) (list_ascii_of_string ".-+einfa").

(** The character [c] does not occur in [s]. *)
Fixpoint avoids (c : ascii) (s : string) : bool :=
  match s with
  | EmptyString => true
  | String a t => negb (Ascii.eqb a c) && avoids c t
  end.

(** The first bytes of [data], compared without regard to case, are the
    (lower case) text [p]. *)
Definition begins_with_ci (p : string) (data : list byte) : Prop :=
  lower_bytes (firstn (String.length p) data) = list_byte_of_string p.

(** A response that looks like a page of markup: by the first 8 bytes of
    its body or by its declared content type. *)
Definition html_like (r : response) : Prop :=
  begins_with_ci "<!do" (firstn 8 (content r)) \/
  begins_with_ci "<html" (firstn 8 (content r)) \/
  begins_with_ci "<?xml" (firstn 8 (content r)) \/
  (exists ct, content_type_header r = Some ct /\ contains "html" ct = true).

(** *** Reading a CSV text back

    The reading that inverts [to_csv]: the header [X,Y,Z], then a line
    of three cells per point; an empty cell is a missing value (NaN), any
    other cell is read as [float] reads it. *)
Definition read_cell (s : string) : option float64 :=
  if String.eqb s "" then Some S754_nan else parse s.

Definition read_row (line : string) : option (float64 * float64 * float64) :=
  match split ","%char line with
  | [a; b; c] =>
      match read_cell a, read_cell b, read_cell c with
      | Some x, Some y, Some z => Some (x, y, z)
      | _, _, _ => None
      end
  | _ => None
  end.

(** The lines after the header; the text ends with a line terminator,
    so the last piece of the split is empty. *)
Fixpoint read_rows (pieces : list string) : option (list (float64 * float64 * float64)) :=
  match pieces with
  | [] => None
  | [last] => if String.eqb last "" then Some [] else None
  | line :: rest =>
      match read_row line, read_rows rest with
      | Some r, Some rs => Some (r :: rs)
      | _, _ => None
      end
  end.

Definition read_csv (csv : string) : option (list (float64 * float64 * float64)) :=
  match split "010"%char csv with
  | header :: rest => if String.eqb header "X,Y,Z" then read_rows rest else None
  | [] => None
  end.

(** [N / D] is within [1 / (2 * 10^16)] of [n / d], relatively: the
    distance between a number and its decimal of 17 digits. *)
Definition near (N D n d : Z) : Prop :=
  Z.abs (N * d - n * D) * (2 * 10 ^ 16) <= n * D.

(** The parts a decimal text is put together from. *)
Definition dot_part (fp : option (list ascii)) : list ascii :=
  match fp with Some f => "."%char :: f | None => [] end.

Definition exp_part (xs : option (list ascii)) : list ascii :=
  match xs with Some l => "e"%char :: l | None => [] end.

Definition opt_list (fp : option (list ascii)) : list ascii :=
  match fp with Some f => f | None => [] end.

(** A data line of the CSV without its terminator. *)
Definition row_body (r : float64 * float64 * float64) : string :=
  let '(a, b, c) := r in csv_cell a ++ "," ++ csv_cell b ++ "," ++ csv_cell c.

(** The three columns of a list of rows. *)
Definition columns (rs : list (float64 * float64 * float64))
  : list float64 * list float64 * list float64 :=
  (map (fun r => fst (fst r)) rs, map (fun r => snd (fst r)) rs, map snd rs).

(** Some numbers of the format. *)
Definition f_12_5 : float64 := S754_finite false 7036874417766400 (-49).
Definition f_7_25 : float64 := S754_finite false 8162774324609024 (-50).
Definition f_0 : float64 := S754_zero false.
Definition f_1 : float64 := S754_finite false 4503599627370496 (-52).

End Spec.

(** ** Inputs the properties are tried on *)

Module Cases.

Import Text Numeral Float64 Lib App Spec.

Definition generic_url_hint : string :=
  "Ensure the URL points directly to the .laz file (use presigned S3 URL, add ?dl=1 for Dropbox, or enable public GET).".

Definition no_points : las_data := Las (Vector []) (Vector []) (Vector []).

Definition ragged : las_data :=
  Las (Vector [f_1; f_1; f_1]) (Vector [f_1; f_1]) (Vector [f_1; f_1; f_1]).

(** A response that is refused for its status, a decoder that finds no
    backend, and the inputs of the URL branch used below. *)
Definition unauthorized : response :=
  Response 401 "Unauthorized" "Access denied" (bytes_of "Access denied") (Some "text/plain").

Definition laz_response : response :=
  Response 200 "OK" "LASF" (bytes_of "LASF") (Some "application/octet-stream").

Definition tile_url : url_inputs := UrlInputs "https://example.org/tile.laz" NoAuth "" "" "".

Definition no_backend : exn :=
  Exn (OtherException "LaspyException") "No LazBackend selected, cannot decompress data".

Definition login_page : response :=
  Response 200 "OK" "<HTML><body>Sign in</body></HTML>"
    (bytes_of "<HTML><body>Sign in</body></HTML>") None.

Definition one_point : las_data := Las (Vector [f_12_5]) (Vector [f_7_25]) (Vector [f_0]).

(** The bytes and the label of a table, without its name. *)
Definition table_content (t : exported_table) : list byte * string :=
  (table_data t, table_mime t).

Definition url_name (fmt : output_format) : string :=
  match fmt with
  | CSV => "downloaded_file.csv"
  | XYZ => "downloaded_file.xyz"
  end.

End Cases.

(** ** The counter of the session *)

Module Session.

Import Lib.

(** [st.session_state], the values that outlive a rerun of the script;
    the script keeps an integer under the key [counter]. *)
Definition session_state : Type := list (string * Z).

(** [st.session_state[k]], [None] when [k not in st.session_state]. *)
Fixpoint get (k : string) (s : session_state) : option Z :=
  match s with
  | [] => None
  | (k', v) :: t => if String.eqb k' k then Some v else get k t
  end.

(** [st.session_state[k] = v]. *)
Fixpoint set (k : string) (v : Z) (s : session_state) : session_state :=
  match s with
  | [] => [(k, v)]
  | (k', v') :: t => if String.eqb k' k then (k, v) :: t else (k', v') :: set k v t
  end.

(** Reading an attribute that is not set. *)
Definition no_attribute (k : string) : exn := Exn (OtherException "AttributeError") k.

(** The counter of a rerun: set to 0 when absent, incremented when the
    button was pressed, then shown.  The result is the state after the
    rerun and the number that [st.write] shows. *)
Definition counter_block (pressed : bool) (s : session_state) : exn + session_state * Z :=
  let s1 := match get "counter" s with
            | None => set "counter" 0 s
            | Some _ => s
            end in
  let s2 := if pressed then
              match get "counter" s1 with
              | Some v => inr (set "counter" (v + 1) s1)
              | None => inl (no_attribute "counter")
              end
            else inr s1 in
  match s2 with
  | inl e => inl e
  | inr s2 =>
      match get "counter" s2 with
      | Some v => inr (s2, v)
      | None => inl (no_attribute "counter")
      end
  end.

(** Reruns in a row, one entry per rerun: was the button pressed. *)
Fixpoint reruns (presses : list bool) (s : session_state) : exn + session_state :=
  match presses with
  | [] => inr s
  | p :: rest =>
      match counter_block p s with
      | inl e => inl e
      | inr (s', _) => reruns rest s'
      end
  end.

(** The counter, 0 when it is not set. *)
Definition counter_of (s : session_state) : Z :=
  match get "counter" s with Some v => v | None => 0 end.

(** The number of reruns in which the button was pressed. *)
Definition presses_in (presses : list bool) : Z :=
  Z.of_nat (List.length (filter (fun p => p) presses)).

End Session.

(** ** What a run did *)

Module Observe.

Import Text Float64 Lib App.

(** The packages the installer was run for. *)
Definition installs (t : list event) : list string :=
  flat_map (fun ev =>
    match ev with
    | pip_install_call package => [package]
    | _ => []
    end) t.


(** The bytes and the label of the table of a format. *)
Definition table_bytes (fmt : output_format) (x y z : list float64) : list byte :=
  match fmt with
  | CSV => encode_utf8 (to_csv (DataFrame x y z))
  | XYZ => encode_utf8 (xyz_str (column_stack x y z))
  end.

Definition table_label (fmt : output_format) : string :=
  match fmt with
  | CSV => "text/csv"
  | XYZ => "text/plain"
  end.

Definition extension (fmt : output_format) : string :=
  match fmt with
  | CSV => ".csv"
  | XYZ => ".xyz"
  end.

(** What a branch offers for a decoder result: nothing for a failure or
    for arrays of different lengths, the table otherwise. *)
Definition offered (fmt : output_format) (file_name : string) (d : exn + las_data)
  : list exported_table :=
  match d with
  | inl _ => []
  | inr las =>
      let x := atleast_1d (las_x las) in
      let y := atleast_1d (las_y las) in
      let z := atleast_1d (las_z las) in
      if mismatched x y z then []
      else [Exported (table_bytes fmt x y z) (table_label fmt) file_name]
  end.

(** A response that passes the test of the status and the test for HTML. *)
Definition accepted (r : response) : bool :=
  (status_code r =? 200)%N && negb (looks_like_html r).

(** The magnitude [m * 2^e] of a finite number, as a rational. *)
Definition magnitude (m : positive) (e : Z) : Q :=
  let '(n, d) := scaled m e 0 in Qmake n (Z.to_pos d).

End Observe.

(** ** How a coordinate is written in the XYZ text *)

Module XyzSpec.

Import Float64 Spec Observe.

(** The text of a coordinate under [.3f]: the special values by their
    names; a finite number with exactly three decimals, as its sign and
    the decimal [q / 1000] nearest to its magnitude, within half a
    thousandth. *)
Definition written_3f (v : float64) : Prop :=
  match v with
  | S754_nan => format_3f v = "nan"
  | S754_infinity s => format_3f v = if s then "-inf" else "inf"
  | S754_zero s => format_3f v = if s then "-0.000" else "0.000"
  | S754_finite s m e =>
      three_decimals (format_3f v) = true /\
      exists q,
        0 <= q /\
        format_3f v = string_of_list_ascii (sign_text s ++ fixed_digits 3 q) /\
        parse_decimal (fixed_digits 3 q) = Some (q, -3) /\
        Qle (Qabs (decimal_value q (-3) - magnitude m e)) (1 # 2000)
  end.

End XyzSpec.

(** * Properties *)

(** ** Facts about texts *)

Module TextFacts.

Import Text Spec.

Lemma append_nil_r : forall s : string, s ++ "" = s.
Proof. induction s as [|a s IH]; simpl; [reflexivity|now rewrite IH]. Qed.

Lemma append_assoc : forall a b c : string, (a ++ b) ++ c = a ++ b ++ c.
Proof. intros a b c. induction a as [|x a IH]; simpl; [reflexivity|now rewrite IH]. Qed.

(** A stem without a point is left as it is by [replace], which then
    rewrites the extension that follows it. *)
Lemma replace_from_stem : forall stem rest old new,
  avoids "."%char stem = true ->
  replace_from (String "."%char old) new 0 (stem ++ rest) =
  stem ++ replace_from (String "."%char old) new 0 rest.
Proof.
  induction stem as [|c stem IH]; intros rest old new H; [reflexivity|].
  cbn [avoids] in H. apply andb_true_iff in H. destruct H as [Hc Hs].
  change (String c stem ++ rest) with (String c (stem ++ rest)).
  cbn [replace_from prefix].
  destruct (ascii_dec "."%char c) as [E|_].
  - subst c. discriminate Hc.
  - rewrite (IH rest old new Hs). reflexivity.
Qed.

Lemma replace_extension : forall stem ext,
  avoids "."%char stem = true ->
  replace (stem ++ ".laz") ".laz" ext = stem ++ ext.
Proof.
  intros stem ext H. unfold replace. rewrite replace_from_stem by exact H.
  f_equal. cbn. apply append_nil_r.
Qed.

Lemma prefix_lower : forall p s, prefix p s = true -> prefix (lower p) (lower s) = true.
Proof.
  induction p as [|a p IH]; intros s H; [destruct s; reflexivity|].
  destruct s as [|b s]; [discriminate|].
  simpl in *. destruct (ascii_dec a b) as [->|]; [|discriminate].
  destruct (ascii_dec (lower_ascii b) (lower_ascii b)); [auto|congruence].
Qed.

Lemma contains_cons : forall p b s,
  contains p (String b s) = if prefix p (String b s) then true else contains p s.
Proof. reflexivity. Qed.

Lemma contains_lower : forall p s, contains p s = true -> contains (lower p) (lower s) = true.
Proof.
  intros p s. induction s as [|b s IH].
  - destruct p; simpl; auto.
  - rewrite contains_cons. change (lower (String b s)) with (String (lower_ascii b) (lower s)).
    rewrite contains_cons.
    destruct (prefix p (String b s)) eqn:E; intros H.
    + apply prefix_lower in E. change (lower (String b s)) with (String (lower_ascii b) (lower s)) in E.
      now rewrite E.
    + rewrite (IH H). destruct (prefix (lower p) _); reflexivity.
Qed.

Lemma startswith_firstn : forall p l, firstn (List.length p) l = p -> startswith p l = true.
Proof.
  induction p as [|a p IH]; intros l H; [reflexivity|].
  destruct l as [|b l]; [discriminate|].
  simpl in H. injection H as -> H. simpl.
  rewrite (Byte.byte_dec_lb eq_refl). now apply IH.
Qed.

Lemma begins_with_ci_startswith : forall p data,
  begins_with_ci p (firstn 8 data) ->
  startswith (list_byte_of_string p) (lower_bytes (firstn 8 data)) = true.
Proof.
  intros p data H. apply startswith_firstn.
  unfold lower_bytes in *. rewrite firstn_map.
  replace (List.length (list_byte_of_string p)) with (String.length p); [exact H|].
  unfold list_byte_of_string. rewrite length_map.
  clear. induction p; simpl; auto.
Qed.

End TextFacts.

(** ** Facts about numerals *)

Module NumeralFacts.

Import Text Numeral Spec.

Lemma digit_char_spec : forall d, 0 <= d < 10 ->
  is_digit (digit_char d) = true /\ digit_value (digit_char d) = Some d.
Proof.
  intros d H.
  assert (E : d = 0 \/ d = 1 \/ d = 2 \/ d = 3 \/ d = 4 \/ d = 5 \/ d = 6 \/ d = 7 \/
              d = 8 \/ d = 9) by lia.
  repeat (destruct E as [->|E]; [split; reflexivity|]). subst d. split; reflexivity.
Qed.

Lemma digits_fuel_acc : forall fuel n acc,
  digits_fuel fuel n acc = (digits_fuel fuel n [] ++ acc)%list.
Proof.
  induction fuel as [|f IH]; intros n acc; simpl; [reflexivity|].
  destruct (n / 10 =? 0); [reflexivity|].
  rewrite (IH _ (_ :: acc)), (IH _ [_]), <- app_assoc. reflexivity.
Qed.

Lemma digits_fuel_step : forall f n,
  digits_fuel (S f) n [] =
  if n / 10 =? 0 then [digit_char (n mod 10)]
  else (digits_fuel f (n / 10) [] ++ [digit_char (n mod 10)])%list.
Proof.
  intros f n. simpl. destruct (n / 10 =? 0); [reflexivity|]. apply digits_fuel_acc.
Qed.

Lemma digits_value_app : forall l1 l2 a,
  digits_value a (l1 ++ l2) =
  match digits_value a l1 with
  | Some v => digits_value v l2
  | None => None
  end.
Proof.
  induction l1 as [|c l1 IH]; intros l2 a; simpl; [reflexivity|].
  destruct (digit_value c); [apply IH|reflexivity].
Qed.

Lemma digits_fuel_value : forall fuel n,
  0 < n < 2 ^ Z.of_nat fuel -> digits_value 0 (digits_fuel fuel n []) = Some n.
Proof.
  induction fuel as [|f IH]; intros n H.
  - change (2 ^ Z.of_nat 0) with 1 in H. lia.
  - rewrite digits_fuel_step.
    assert (Hm : 0 <= n mod 10 < 10) by (apply Z.mod_pos_bound; lia).
    destruct (digit_char_spec _ Hm) as [_ Hv].
    destruct (Z.eqb_spec (n / 10) 0) as [E|E].
    + cbn [digits_value]. rewrite Hv. f_equal. pose proof (Z.div_mod n 10). lia.
    + rewrite digits_value_app, IH.
      * cbn [digits_value]. rewrite Hv. f_equal. pose proof (Z.div_mod n 10). lia.
      * assert (0 <= n / 10) by (apply Z.div_pos; lia).
        split; [lia|].
        rewrite Nat2Z.inj_succ, Z.pow_succ_r in H by lia.
        apply Z.div_lt_upper_bound; lia.
Qed.

Lemma size_nat_bound : forall p, Zpos p < 2 ^ Z.of_nat (Pos.size_nat p).
Proof.
  induction p; simpl Pos.size_nat; rewrite ?Nat2Z.inj_succ, ?Z.pow_succ_r by lia; lia.
Qed.

Lemma digits_value_digits : forall n, 0 <= n -> digits_value 0 (digits n) = Some n.
Proof.
  intros [|p|p] H; [reflexivity| |lia].
  apply digits_fuel_value. split; [lia|apply size_nat_bound].
Qed.

Lemma digits_fuel_are_digits : forall fuel n, 0 <= n ->
  forallb is_digit (digits_fuel fuel n []) = true.
Proof.
  induction fuel as [|f IH]; intros n H; [reflexivity|].
  rewrite digits_fuel_step.
  assert (Hm : 0 <= n mod 10 < 10) by (apply Z.mod_pos_bound; lia).
  destruct (digit_char_spec _ Hm) as [Hd _].
  destruct (n / 10 =? 0).
  - cbn [forallb]. now rewrite Hd.
  - rewrite forallb_app, IH by (apply Z.div_pos; lia). cbn [forallb]. now rewrite Hd.
Qed.

Lemma digits_are_digits : forall n, forallb is_digit (digits n) = true.
Proof.
  intros [|p|p]; [reflexivity| |reflexivity].
  apply digits_fuel_are_digits. lia.
Qed.

Lemma digits_fuel_nonempty : forall fuel n, fuel <> O -> digits_fuel fuel n [] <> [].
Proof.
  intros [|f] n H; [congruence|]. rewrite digits_fuel_step.
  destruct (n / 10 =? 0); [discriminate|].
  intros E. apply app_eq_nil in E. destruct E as [_ E]. discriminate E.
Qed.

Lemma digits_nonempty : forall n, digits n <> [].
Proof.
  intros [|p|p]; [discriminate| |discriminate].
  apply digits_fuel_nonempty. destruct p; discriminate.
Qed.

(** A number below [10^k] has at most [k] digits. *)
Lemma digits_fuel_length : forall fuel n k,
  0 <= n < 10 ^ Z.of_nat (S k) -> (List.length (digits_fuel fuel n []) <= S k)%nat.
Proof.
  induction fuel as [|f IH]; intros n k H; [cbn [digits_fuel List.length]; lia|].
  rewrite digits_fuel_step.
  destruct (Z.eqb_spec (n / 10) 0) as [E|E]; [cbn [List.length]; lia|].
  rewrite length_app. cbn [List.length].
  destruct k as [|k].
  - exfalso. apply E. apply Z.div_small. change (10 ^ Z.of_nat 1) with 10 in H. lia.
  - assert (0 <= n / 10 < 10 ^ Z.of_nat (S k)).
    { split; [apply Z.div_pos; lia|].
      rewrite (Nat2Z.inj_succ (S k)), Z.pow_succ_r in H by lia.
      apply Z.div_lt_upper_bound; lia. }
    specialize (IH _ _ H0). lia.
Qed.

Lemma digits_length : forall n k,
  0 <= n < 10 ^ Z.of_nat (S k) -> (List.length (digits n) <= S k)%nat.
Proof.
  intros [|p|p] k H; [simpl; lia| |lia].
  apply digits_fuel_length. exact H.
Qed.

Lemma zeros_are_digits : forall n, forallb is_digit (zeros n) = true.
Proof. induction n; simpl; auto. Qed.

Lemma pad_left_length : forall w l, (List.length l <= w)%nat -> List.length (pad_left w l) = w.
Proof.
  intros w l H. unfold pad_left, zeros. rewrite length_app, repeat_length. lia.
Qed.

Lemma pad_left_are_digits : forall w l,
  forallb is_digit l = true -> forallb is_digit (pad_left w l) = true.
Proof.
  intros w l H. unfold pad_left. rewrite forallb_app, zeros_are_digits, H. reflexivity.
Qed.

End NumeralFacts.

(** ** Facts about splitting and joining *)

Module SplitFacts.

Import Text Numeral Spec.

Lemma avoids_app : forall c a b, avoids c (a ++ b) = avoids c a && avoids c b.
Proof.
  intros c a b. induction a as [|x a IH]; simpl; [reflexivity|].
  rewrite IH. now rewrite andb_assoc.
Qed.

Lemma avoids_of_list : forall c l,
  avoids c (string_of_list_ascii l) = forallb (fun a => negb (Ascii.eqb a c)) l.
Proof.
  intros c l. induction l as [|x l IH]; simpl; [reflexivity|]. now rewrite IH.
Qed.

Lemma avoids_numeric : forall c l,
  numeric_char c = false -> forallb numeric_char l = true ->
  avoids c (string_of_list_ascii l) = true.
Proof.
  intros c l Hc Hl. rewrite avoids_of_list. rewrite forallb_forall in *.
  intros a Ha. specialize (Hl a Ha).
  destruct (Ascii.eqb_spec a c) as [->|]; [congruence|reflexivity].
Qed.

Lemma split_avoids : forall c p, avoids c p = true -> split c p = [p].
Proof.
  intros c p. induction p as [|a p IH]; simpl; [reflexivity|].
  destruct (Ascii.eqb a c); simpl; [discriminate|].
  intros H. rewrite (IH H). reflexivity.
Qed.

Lemma split_app : forall c p rest,
  avoids c p = true -> split c (p ++ String c rest) = p :: split c rest.
Proof.
  intros c p rest. induction p as [|a p IH]; simpl.
  - intros _. now rewrite Ascii.eqb_refl.
  - destruct (Ascii.eqb a c); simpl; [discriminate|].
    intros H. rewrite (IH H). reflexivity.
Qed.

Lemma split_join : forall c ls,
  ls <> [] -> Forall (fun p => avoids c p = true) ls ->
  split c (join (String c "") ls) = ls.
Proof.
  intros c ls Hne H. induction H as [|p ls Hp Hls IH]; [congruence|].
  destruct ls as [|q ls].
  - simpl. now apply split_avoids.
  - change (join (String c "") (p :: q :: ls))
      with (p ++ String c (join (String c "") (q :: ls))).
    rewrite split_app by assumption. rewrite IH by discriminate. reflexivity.
Qed.

Lemma cut_app : forall c ip fp,
  forallb (fun a => negb (Ascii.eqb a c)) ip = true ->
  Float64.cut c (ip ++ c :: fp) = (ip, Some fp).
Proof.
  intros c ip fp. induction ip as [|a ip IH]; simpl.
  - intros _. now rewrite Ascii.eqb_refl.
  - destruct (Ascii.eqb a c); simpl; [discriminate|].
    intros H. rewrite (IH H). reflexivity.
Qed.

Lemma cut_none : forall c l,
  forallb (fun a => negb (Ascii.eqb a c)) l = true -> Float64.cut c l = (l, None).
Proof.
  intros c l. induction l as [|a l IH]; simpl; [reflexivity|].
  destruct (Ascii.eqb a c); simpl; [discriminate|].
  intros H. rewrite (IH H). reflexivity.
Qed.

Lemma digits_avoid : forall c l,
  is_digit c = false -> forallb is_digit l = true ->
  forallb (fun a => negb (Ascii.eqb a c)) l = true.
Proof.
  intros c l Hc Hl. rewrite forallb_forall in *. intros a Ha. specialize (Hl a Ha).
  destruct (Ascii.eqb_spec a c) as [->|]; [congruence|reflexivity].
Qed.

Lemma digits_numeric : forall l, forallb is_digit l = true -> forallb numeric_char l = true.
Proof.
  intros l H. rewrite forallb_forall in *. intros a Ha. unfold numeric_char.
  now rewrite (H a Ha).
Qed.

End SplitFacts.

(** ** Facts about the fixed notation *)

Module FixedFacts.

Import Text Numeral Float64 Spec NumeralFacts SplitFacts.

Lemma round_half_even_nonneg : forall a b, 0 <= a -> 0 < b -> 0 <= round_half_even a b.
Proof.
  intros a b Ha Hb. unfold round_half_even.
  assert (0 <= a / b) by (apply Z.div_pos; lia).
  destruct (2 * (a mod b) ?= b); [destruct (Z.even (a / b))| |]; lia.
Qed.

Lemma scaled_positive : forall m e p a b, scaled m e p = (a, b) -> 0 < a /\ 0 < b.
Proof.
  intros m e p a b. unfold scaled.
  destruct (Z.leb_spec 0 e) as [He|He], (Z.leb_spec 0 p) as [Hp|Hp];
    intros E; apply pair_equal_spec in E; destruct E as [<- <-].
  - assert (0 < 2 ^ e) by (apply Z.pow_pos_nonneg; lia).
    assert (0 < 10 ^ p) by (apply Z.pow_pos_nonneg; lia). split; [|lia].
    repeat apply Z.mul_pos_pos; lia.
  - assert (0 < 2 ^ e) by (apply Z.pow_pos_nonneg; lia).
    assert (0 < 10 ^ (- p)) by (apply Z.pow_pos_nonneg; lia). split; [|lia].
    repeat apply Z.mul_pos_pos; lia.
  - assert (0 < 2 ^ (- e)) by (apply Z.pow_pos_nonneg; lia).
    assert (0 < 10 ^ p) by (apply Z.pow_pos_nonneg; lia). split; [|lia].
    repeat apply Z.mul_pos_pos; lia.
  - assert (0 < 2 ^ (- e)) by (apply Z.pow_pos_nonneg; lia).
    assert (0 < 10 ^ (- p)) by (apply Z.pow_pos_nonneg; lia). split; [lia|].
    repeat apply Z.mul_pos_pos; lia.
Qed.

Lemma fixed_digits_three : forall q, 0 <= q ->
  fixed_digits 3 q =
  (digits (q / 1000) ++ "."%char :: pad_left 3 (digits (q mod 1000)))%list.
Proof. reflexivity. Qed.

Lemma three_decimals_fixed : forall s q, 0 <= q ->
  three_decimals (string_of_list_ascii (sign_text s ++ fixed_digits 3 q)) = true.
Proof.
  intros s q Hq. unfold three_decimals.
  rewrite list_ascii_of_string_of_list_ascii, fixed_digits_three by assumption.
  set (ip := digits (q / 1000)). set (fp := pad_left 3 (digits (q mod 1000))).
  assert (Hip : forallb is_digit ip = true) by apply digits_are_digits.
  assert (Hne : ip <> []) by apply digits_nonempty.
  assert (Hfp : forallb is_digit fp = true) by (apply pad_left_are_digits, digits_are_digits).
  assert (Hlen : List.length fp = 3%nat).
  { apply pad_left_length. apply digits_length.
    change (10 ^ Z.of_nat 3) with 1000. apply Z.mod_pos_bound. lia. }
  assert (Hcut : cut "."%char (ip ++ "."%char :: fp) = (ip, Some fp))
    by (apply cut_app, digits_avoid; [reflexivity|assumption]).
  assert (Hres : (negb (List.length ip =? 0)%nat && forallb is_digit ip &&
                  (List.length fp =? 3)%nat && forallb is_digit fp) = true).
  { rewrite Hip, Hfp, Hlen. destruct ip; [congruence|reflexivity]. }
  destruct s; cbn [sign_text app].
  - rewrite Ascii.eqb_refl, Hcut. exact Hres.
  - destruct ip as [|a ip']; [congruence|].
    cbn [app]. cbn [forallb] in Hip. apply andb_true_iff in Hip. destruct Hip as [Ha _].
    destruct (Ascii.eqb_spec a "-"%char) as [->|]; [discriminate Ha|].
    change (a :: (ip' ++ "."%char :: fp)%list) with ((a :: ip') ++ "."%char :: fp)%list.
    rewrite Hcut. exact Hres.
Qed.

(** A finite number is written with exactly three decimals. *)
Lemma format_3f_three_decimals : forall v,
  is_finite v = true -> three_decimals (format_3f v) = true.
Proof.
  intros [s|s| |s m e] H; try discriminate H; unfold format_3f, format_fixed.
  - apply three_decimals_fixed. lia.
  - destruct (scaled m e (Z.of_nat 3)) as [a b] eqn:E.
    apply scaled_positive in E. apply three_decimals_fixed.
    apply round_half_even_nonneg; lia.
Qed.

Lemma sign_text_numeric : forall s, forallb numeric_char (sign_text s) = true.
Proof. intros []; reflexivity. Qed.

Lemma fixed_digits_numeric : forall p q, forallb numeric_char (fixed_digits p q) = true.
Proof.
  intros p q. unfold fixed_digits. rewrite forallb_app.
  rewrite (digits_numeric _ (digits_are_digits _)).
  destruct p; [reflexivity|]. cbn [forallb andb].
  rewrite (digits_numeric _ (pad_left_are_digits _ _ (digits_are_digits _))). reflexivity.
Qed.

Lemma format_fixed_numeric : forall p v,
  forallb numeric_char (list_ascii_of_string (format_fixed p v)) = true.
Proof.
  intros p v. unfold format_fixed. rewrite list_ascii_of_string_of_list_ascii.
  destruct v as [s|s| |s m e]; try reflexivity.
  - rewrite forallb_app, sign_text_numeric, fixed_digits_numeric. reflexivity.
  - destruct s; reflexivity.
  - destruct (scaled m e (Z.of_nat p)) as [a b].
    rewrite forallb_app, sign_text_numeric, fixed_digits_numeric. reflexivity.
Qed.

Lemma format_3f_avoids : forall c v, numeric_char c = false -> avoids c (format_3f v) = true.
Proof.
  intros c v Hc. rewrite <- (string_of_list_ascii_of_string (format_3f v)).
  apply avoids_numeric; [exact Hc|apply format_fixed_numeric].
Qed.

End FixedFacts.

(** ** Facts about rounding to binary64 *)

Module RoundFacts.

Import Float64.

Lemma same_eq : forall f g, same f g = true -> f = g.
Proof.
  intros [s|s| |s m e] [s'|s'| |s' m' e']; simpl; try discriminate; intros H.
  - apply eqb_prop in H. now subst.
  - apply eqb_prop in H. now subst.
  - reflexivity.
  - apply andb_true_iff in H. destruct H as [H He].
    apply andb_true_iff in H. destruct H as [Hs Hm].
    apply eqb_prop in Hs. apply Pos.eqb_eq in Hm. apply Z.eqb_eq in He. now subst.
Qed.

Lemma same_refl : forall f, same f f = true.
Proof.
  intros [s|s| |s m e]; simpl; rewrite ?eqb_reflx, ?Pos.eqb_refl, ?Z.eqb_refl; reflexivity.
Qed.

(** *** The integer nearest to a fraction *)

Lemma round_half_even_unique : forall a b m,
  0 < b -> 2 * Z.abs (a - m * b) < b -> round_half_even a b = m.
Proof.
  intros a b m Hb H. unfold round_half_even.
  pose proof (Z.div_mod a b ltac:(lia)) as E.
  pose proof (Z.mod_pos_bound a b Hb) as Hr.
  set (q := a / b) in *. set (r := a mod b) in *.
  destruct (Z_lt_le_dec q (m - 1)) as [Hq|Hq].
  { exfalso. assert (b * q <= b * (m - 2)) by (apply Z.mul_le_mono_nonneg_l; lia). lia. }
  destruct (Z_lt_le_dec m q) as [Hq'|Hq'].
  { exfalso. assert (b * (m + 1) <= b * q) by (apply Z.mul_le_mono_nonneg_l; lia). lia. }
  assert (Hc : q = m \/ q = m - 1) by lia.
  destruct Hc as [->| ->]; destruct (Z.compare_spec (2 * r) b); lia.
Qed.

Lemma round_half_even_error : forall a b,
  0 < b -> 2 * Z.abs (a - round_half_even a b * b) <= b.
Proof.
  intros a b Hb. unfold round_half_even.
  pose proof (Z.div_mod a b ltac:(lia)) as E.
  pose proof (Z.mod_pos_bound a b Hb) as Hr.
  set (q := a / b) in *. set (r := a mod b) in *.
  destruct (Z.compare_spec (2 * r) b); [destruct (Z.even q)| |]; lia.
Qed.

Lemma round_half_even_lower : forall a b c,
  0 < b -> c * b <= a -> c <= round_half_even a b.
Proof.
  intros a b c Hb H. unfold round_half_even.
  assert (c <= a / b) by (apply Z.div_le_lower_bound; lia).
  destruct (Z.compare_spec (2 * (a mod b)) b); [destruct (Z.even (a / b))| |]; lia.
Qed.

(** *** The shape of a valid finite number *)

Lemma digits2_pos_spec : forall m,
  2 ^ (Zpos (digits2_pos m) - 1) <= Zpos m < 2 ^ Zpos (digits2_pos m).
Proof.
  induction m as [m IH|m IH|]; cbn [digits2_pos].
  - rewrite Pos2Z.inj_succ.
    replace (Z.succ (Zpos (digits2_pos m)) - 1) with (Z.succ (Zpos (digits2_pos m) - 1)) by lia.
    rewrite !Z.pow_succ_r by lia. lia.
  - rewrite Pos2Z.inj_succ.
    replace (Z.succ (Zpos (digits2_pos m)) - 1) with (Z.succ (Zpos (digits2_pos m) - 1)) by lia.
    rewrite !Z.pow_succ_r by lia. lia.
  - simpl. lia.
Qed.

Lemma bounded_spec : forall m e,
  bounded prec emax m e = true ->
  Zpos m < 2 ^ 53 /\ -1074 <= e <= 971 /\ (2 ^ 52 <= Zpos m \/ e = -1074).
Proof.
  intros m e H. unfold bounded, canonical_mantissa, fexp, emin, prec, emax in H.
  apply andb_true_iff in H. destruct H as [Hc He].
  apply Z.eqb_eq in Hc. apply Z.leb_le in He.
  pose proof (digits2_pos_spec m) as [Hlo Hhi].
  set (dg := Zpos (digits2_pos m)) in *.
  assert (Hd : dg <= 53) by lia.
  split.
  - apply Z.lt_le_trans with (2 ^ dg); [exact Hhi|].
    apply Z.pow_le_mono_r; lia.
  - split; [lia|].
    destruct (Z.eq_dec e (-1074)) as [|Hne]; [right; assumption|left].
    assert (dg = 53) by lia.
    replace (dg - 1) with 52 in Hlo by lia. exact Hlo.
Qed.

(** *** Exponents of either sign

    The definitions branch on the sign of an exponent.  With a shift [L]
    that makes every exponent at hand non-negative, [2^x <= n / d] reads
    [d * 2^(x + L) <= n * 2^L] whatever the sign of [x]. *)

Section Shift.

Variable L : Z.
Hypothesis HL : 0 <= L.

Lemma shift_pos : forall x, 0 < 2 ^ x \/ x < 0.
Proof.
  intros x. destruct (Z_lt_le_dec x 0); [right; assumption|left].
  apply Z.pow_pos_nonneg; lia.
Qed.

Lemma shift_split_nonneg : forall x, 0 <= x -> 2 ^ (x + L) = 2 ^ x * 2 ^ L.
Proof. intros x Hx. apply Z.pow_add_r; lia. Qed.

Lemma shift_split_neg : forall x, x < 0 -> - L <= x -> 2 ^ L = 2 ^ (- x) * 2 ^ (x + L).
Proof.
  intros x Hx Hl. rewrite <- Z.pow_add_r by lia. f_equal. lia.
Qed.

Lemma pow2_le_shift : forall n d x, 0 < d -> - L <= x ->
  (if 0 <=? x then d * 2 ^ x <=? n else d <=? n * 2 ^ (- x)) =
  (d * 2 ^ (x + L) <=? n * 2 ^ L).
Proof.
  intros n d x Hd Hx.
  assert (HP : 0 < 2 ^ L) by (apply Z.pow_pos_nonneg; lia).
  destruct (Z.leb_spec 0 x) as [H0|H0].
  - rewrite (shift_split_nonneg x H0).
    assert (0 < 2 ^ x) by (apply Z.pow_pos_nonneg; lia).
    destruct (Z.leb_spec (d * 2 ^ x) n) as [H1|H1];
      destruct (Z.leb_spec (d * (2 ^ x * 2 ^ L)) (n * 2 ^ L)) as [H2|H2]; try reflexivity; exfalso.
    + assert (d * 2 ^ x * 2 ^ L <= n * 2 ^ L) by (apply Z.mul_le_mono_nonneg_r; lia). lia.
    + assert (n * 2 ^ L < d * 2 ^ x * 2 ^ L) by (apply Z.mul_lt_mono_pos_r; lia). lia.
  - rewrite (shift_split_neg x H0 Hx).
    assert (HS : 0 < 2 ^ (x + L)) by (apply Z.pow_pos_nonneg; lia).
    destruct (Z.leb_spec d (n * 2 ^ (- x))) as [H1|H1];
      destruct (Z.leb_spec (d * 2 ^ (x + L)) (n * (2 ^ (- x) * 2 ^ (x + L)))) as [H2|H2];
      try reflexivity; exfalso.
    + assert (d * 2 ^ (x + L) <= n * 2 ^ (- x) * 2 ^ (x + L))
        by (apply Z.mul_le_mono_nonneg_r; lia). lia.
    + assert (n * 2 ^ (- x) * 2 ^ (x + L) < d * 2 ^ (x + L))
        by (apply Z.mul_lt_mono_pos_r; lia). lia.
Qed.

Lemma log2_bounds : forall n, 0 < n -> 0 <= Z.log2 n /\ 2 ^ Z.log2 n <= n < 2 ^ (Z.log2 n + 1).
Proof.
  intros n Hn. split; [apply Z.log2_nonneg|].
  pose proof (Z.log2_spec n Hn). unfold Z.succ in *. lia.
Qed.

Lemma binade_ge : forall n d x, 0 < n -> 0 < d -> - L <= x ->
  d * 2 ^ (x + L) <= n * 2 ^ L -> x <= binade n d.
Proof.
  intros n d x Hn Hd Hx H.
  destruct (log2_bounds n Hn) as [Ha [Ha1 Ha2]].
  destruct (log2_bounds d Hd) as [Hb [Hb1 Hb2]].
  set (a := Z.log2 n) in *. set (b := Z.log2 d) in *.
  assert (HP : 0 < 2 ^ L) by (apply Z.pow_pos_nonneg; lia).
  assert (HS : 0 < 2 ^ (x + L)) by (apply Z.pow_pos_nonneg; lia).
  assert (Hxl : x <= a - b).
  { assert (2 ^ (b + (x + L)) < 2 ^ (a + 1 + L)).
    { rewrite (Z.pow_add_r 2 b (x + L)), (Z.pow_add_r 2 (a + 1) L) by lia.
      apply Z.le_lt_trans with (d * 2 ^ (x + L)); [apply Z.mul_le_mono_nonneg_r; lia|].
      apply Z.le_lt_trans with (n * 2 ^ L); [exact H|].
      apply Z.mul_lt_mono_pos_r; lia. }
    apply Z.pow_lt_mono_r_iff in H0; lia. }
  unfold binade. fold a b.
  destruct (Z.eq_dec x (a - b)) as [E|E]; [|destruct (if 0 <=? a - b then _ else _); lia].
  rewrite pow2_le_shift by lia. rewrite <- E.
  destruct (Z.leb_spec (d * 2 ^ (x + L)) (n * 2 ^ L)); lia.
Qed.

Lemma binade_lt : forall n d x, 0 < n -> 0 < d -> - L <= x ->
  n * 2 ^ L < d * 2 ^ (x + L) -> binade n d < x.
Proof.
  intros n d x Hn Hd Hx H.
  destruct (log2_bounds n Hn) as [Ha [Ha1 Ha2]].
  destruct (log2_bounds d Hd) as [Hb [Hb1 Hb2]].
  set (a := Z.log2 n) in *. set (b := Z.log2 d) in *.
  assert (HP : 0 < 2 ^ L) by (apply Z.pow_pos_nonneg; lia).
  assert (HS : 0 < 2 ^ (x + L)) by (apply Z.pow_pos_nonneg; lia).
  assert (Hxl : a - b <= x).
  { assert (2 ^ (a + L) < 2 ^ (b + 1 + (x + L))).
    { rewrite (Z.pow_add_r 2 a L), (Z.pow_add_r 2 (b + 1) (x + L)) by lia.
      apply Z.le_lt_trans with (n * 2 ^ L); [apply Z.mul_le_mono_nonneg_r; lia|].
      apply Z.lt_trans with (d * 2 ^ (x + L)); [exact H|].
      apply Z.mul_lt_mono_pos_r; lia. }
    apply Z.pow_lt_mono_r_iff in H0; lia. }
  unfold binade. fold a b.
  destruct (Z.eq_dec x (a - b)) as [E|E]; [|destruct (if 0 <=? a - b then _ else _); lia].
  rewrite pow2_le_shift by lia. rewrite <- E.
  destruct (Z.leb_spec (d * 2 ^ (x + L)) (n * 2 ^ L)); lia.
Qed.

(** The mantissa at exponent [x]. *)
Lemma mantissa_unique : forall n d x m, 0 < d -> - L <= x ->
  2 * Z.abs (n * 2 ^ L - m * (d * 2 ^ (x + L))) < d * 2 ^ (x + L) ->
  (if 0 <=? x then round_half_even n (d * 2 ^ x)
   else round_half_even (n * 2 ^ (- x)) d) = m.
Proof.
  intros n d x m Hd Hx H.
  assert (HP : 0 < 2 ^ L) by (apply Z.pow_pos_nonneg; lia).
  destruct (Z.leb_spec 0 x) as [H0|H0].
  - assert (HQ : 0 < 2 ^ x) by (apply Z.pow_pos_nonneg; lia).
    apply round_half_even_unique; [lia|].
    rewrite (shift_split_nonneg x H0) in H.
    replace (n * 2 ^ L - m * (d * (2 ^ x * 2 ^ L)))
      with ((n - m * (d * 2 ^ x)) * 2 ^ L) in H by ring.
    rewrite Z.abs_mul, (Z.abs_eq (2 ^ L)) in H by lia.
    apply Z.mul_lt_mono_pos_r with (2 ^ L); [exact HP|]. lia.
  - assert (HS : 0 < 2 ^ (x + L)) by (apply Z.pow_pos_nonneg; lia).
    apply round_half_even_unique; [lia|].
    rewrite (shift_split_neg x H0 Hx) in H.
    replace (n * (2 ^ (- x) * 2 ^ (x + L)) - m * (d * 2 ^ (x + L)))
      with ((n * 2 ^ (- x) - m * d) * 2 ^ (x + L)) in H by ring.
    rewrite Z.abs_mul, (Z.abs_eq (2 ^ (x + L))) in H by lia.
    apply Z.mul_lt_mono_pos_r with (2 ^ (x + L)); [exact HS|]. lia.
Qed.

End Shift.

End RoundFacts.

Module NearFacts.

Import Float64 Spec RoundFacts.

Lemma scaled_zero : forall m e,
  scaled m e 0 =
  (if 0 <=? e then Zpos m * 2 ^ e else Zpos m, if 0 <=? e then 1 else 2 ^ (- e)).
Proof.
  intros m e. unfold scaled. cbn [Z.leb Z.compare]. rewrite Z.pow_0_r, Z.mul_1_r. reflexivity.
Qed.

(** The value of a finite number, with the shift. *)
Lemma scaled_shift : forall L m e n d,
  0 <= L -> - L <= e -> scaled m e 0 = (n, d) ->
  0 < n /\ 0 < d /\ n * 2 ^ L = Zpos m * (d * 2 ^ (e + L)).
Proof.
  intros L m e n d HL He E. rewrite scaled_zero in E.
  apply pair_equal_spec in E. destruct E as [<- <-].
  destruct (Z.leb_spec 0 e) as [H0|H0].
  - assert (0 < 2 ^ e) by (apply Z.pow_pos_nonneg; lia).
    rewrite (shift_split_nonneg L HL e H0). repeat split; try lia; ring.
  - assert (0 < 2 ^ (- e)) by (apply Z.pow_pos_nonneg; lia).
    rewrite (shift_split_neg L e H0 He). repeat split; try lia; ring.
Qed.

(** A fraction near a finite number of the format rounds to it. *)
Lemma round_ratio_near : forall s N D m e n d,
  0 < N -> 0 < D ->
  bounded prec emax m e = true ->
  scaled m e 0 = (n, d) ->
  near N D n d ->
  round_ratio s N D = S754_finite s m e.
Proof.
  intros s N D m e n d HN HD Hb Hv Hnear.
  apply bounded_spec in Hb. destruct Hb as [Hm [He Hnorm]].
  remember 1200 as L eqn:EL.
  assert (HL : 0 <= L) by lia.
  assert (HLe : - L <= e - 1) by lia.
  clear EL.
  destruct (scaled_shift L m e n d HL ltac:(lia) Hv) as [Hn [Hd Hval]].
  assert (HP : 0 < 2 ^ L) by (apply Z.pow_pos_nonneg; lia).
  assert (HS : 0 < 2 ^ (e - 1 + L)) by (apply Z.pow_pos_nonneg; lia).
  assert (HX : 2 ^ (e + L) = 2 * 2 ^ (e - 1 + L)).
  { replace (e + L) with (Z.succ (e - 1 + L)) by lia. apply Z.pow_succ_r. lia. }
  assert (HX52 : 2 ^ (e + 52 + L) = 2 ^ 52 * 2 ^ (e + L)).
  { replace (e + 52 + L) with (52 + (e + L)) by lia. apply Z.pow_add_r; lia. }
  assert (HX51 : 2 ^ (e + 51 + L) = 2 ^ 51 * 2 ^ (e + L)).
  { replace (e + 51 + L) with (51 + (e + L)) by lia. apply Z.pow_add_r; lia. }
  assert (HX53 : 2 ^ (e + 53 + L) = 2 ^ 53 * 2 ^ (e + L)).
  { replace (e + 53 + L) with (53 + (e + L)) by lia. apply Z.pow_add_r; lia. }
  (* the hypothesis, with the shift *)
  set (U := N * 2 ^ L) in *.
  set (Y := 2 ^ (e - 1 + L)) in *.
  assert (HW : 0 < D * Y) by (apply Z.mul_pos_pos; lia).
  set (W := D * Y) in *.
  assert (Hclose : Z.abs (U - Zpos m * (2 * W)) * (2 * 10 ^ 16) <= Zpos m * (2 * W)).
  { unfold near in Hnear.
    assert (H1 : Z.abs (N * d - n * D) * (2 * 10 ^ 16) * 2 ^ L <= n * D * 2 ^ L)
      by (apply Z.mul_le_mono_nonneg_r; lia).
    replace (Z.abs (N * d - n * D) * (2 * 10 ^ 16) * 2 ^ L)
      with (Z.abs (N * d - n * D) * 2 ^ L * (2 * 10 ^ 16)) in H1 by ring.
    rewrite <- (Z.abs_eq (2 ^ L)) in H1 at 1 by lia. rewrite <- Z.abs_mul in H1.
    replace ((N * d - n * D) * 2 ^ L) with (d * (U - Zpos m * (2 * W))) in H1
      by (unfold U, W; rewrite HX in Hval; nia).
    replace (n * D * 2 ^ L) with (d * (Zpos m * (2 * W))) in H1
      by (unfold W; rewrite HX in Hval; nia).
    rewrite Z.abs_mul, (Z.abs_eq d) in H1 by lia.
    rewrite <- Z.mul_assoc in H1.
    apply Z.mul_le_mono_pos_l in H1; [exact H1|exact Hd]. }
  assert (HmW : Zpos m * W <= (2 ^ 53 - 1) * W) by (apply Z.mul_le_mono_nonneg_r; lia).
  assert (HmW1 : 1 * W <= Zpos m * W) by (apply Z.mul_le_mono_nonneg_r; lia).
  assert (Hpow : 2 ^ 53 = 9007199254740992 /\ 2 ^ 52 = 4503599627370496 /\
                 2 ^ 51 = 2251799813685248 /\ 10 ^ 16 = 10000000000000000)
    by (repeat split; reflexivity).
  destruct Hpow as [E53 [E52 [E51 E16]]].
  rewrite E53 in *. rewrite E52 in *. rewrite E51 in *. rewrite E16 in *.
  unfold round_ratio. rewrite E53, E52.
  destruct (Z.eqb_spec N 0) as [|_]; [lia|].
  assert (Hcase : (Zpos m = 4503599627370496 /\ U < Zpos m * (2 * W) /\ -1074 < e) \/
                  (U >= Zpos m * (2 * W) \/ Zpos m <> 4503599627370496 \/ e = -1074)) by lia.
  destruct Hcase as [[Hm52 [Hlow Hen]]|Hcase].
  - (* just below a power of two: one binade down *)
    assert (Hbin : binade N D = e + 51).
    { assert (e + 51 <= binade N D).
      { apply (binade_ge L HL); [lia|lia|lia|]. fold U. rewrite HX51, HX.
        replace (D * (2251799813685248 * (2 * Y))) with (2251799813685248 * (2 * W))
          by (unfold W; ring). lia. }
      assert (binade N D < e + 52).
      { apply (binade_lt L HL); [lia|lia|lia|]. fold U. rewrite HX52, HX.
        replace (D * (4503599627370496 * (2 * Y))) with (4503599627370496 * (2 * W))
          by (unfold W; ring). lia. }
      lia. }
    rewrite Hbin. replace (Z.max (e + 51 - 52) (-1074)) with (e - 1) by lia.
    rewrite (mantissa_unique L HL N D (e - 1) 9007199254740992) by (fold U Y W; lia).
    rewrite Z.eqb_refl. replace (e - 1 + 1) with e by lia.
    destruct (Z.leb_spec e 971); [|lia].
    injection Hm52 as ->. reflexivity.
  - (* the binade of the number itself *)
    assert (He' : Z.max (binade N D - 52) (-1074) = e).
    { assert (binade N D < e + 53).
      { apply (binade_lt L HL); [lia|lia|lia|]. fold U. rewrite HX53, HX.
        replace (D * (9007199254740992 * (2 * Y))) with (9007199254740992 * (2 * W))
          by (unfold W; ring). lia. }
      destruct (Z.eq_dec e (-1074)) as [Hsub|Hnsub]; [lia|].
      assert (Hnormal : 4503599627370496 <= Zpos m) by lia.
      assert (4503599627370496 * W <= Zpos m * W) by (apply Z.mul_le_mono_nonneg_r; lia).
      assert (Zpos m <> 4503599627370496 -> 4503599627370497 * W <= Zpos m * W)
        by (intros; apply Z.mul_le_mono_nonneg_r; lia).
      assert (e + 52 <= binade N D).
      { apply (binade_ge L HL); [lia|lia|lia|]. fold U. rewrite HX52, HX.
        replace (D * (4503599627370496 * (2 * Y))) with (4503599627370496 * (2 * W))
          by (unfold W; ring). lia. }
      lia. }
    rewrite He'.
    rewrite (mantissa_unique L HL N D e (Zpos m))
      by (try lia; fold U; rewrite HX;
          replace (D * (2 * Y)) with (2 * W) by (unfold W; ring); lia).
    destruct (Z.eqb_spec (Zpos m) 9007199254740992) as [|_]; [lia|].
    destruct (Z.leb_spec e 971); [reflexivity|lia].
Qed.

End NearFacts.

(** ** Facts about the shortest decimal *)

Module ShortestFacts.

Import Float64 Spec RoundFacts NearFacts FixedFacts.

Lemma round_Q_compat : forall s p q, Qeq p q -> round_Q s p = round_Q s q.
Proof.
  intros s p q H. unfold round_Q. rewrite (Qred_complete p q H). reflexivity.
Qed.

Lemma round_ratio_sign : forall s n d m e,
  round_ratio false n d = S754_finite false m e ->
  round_ratio s n d = S754_finite s m e.
Proof.
  intros s n d m e. unfold round_ratio.
  destruct (n =? 0); [discriminate|].
  destruct (if _ =? 2 ^ 53 then _ else _) as [m' e'].
  destruct m' as [|p|p]; try discriminate.
  destruct (e' <=? 971); [|discriminate].
  intros H. injection H as -> ->. reflexivity.
Qed.

Lemma round_decimal_sign : forall s c k m e,
  round_decimal false c k = S754_finite false m e ->
  round_decimal s c k = S754_finite s m e.
Proof. intros s c k m e. unfold round_decimal, round_Q. apply round_ratio_sign. Qed.

Lemma round_Q_near : forall s num den m e n d,
  0 < num ->
  bounded prec emax m e = true ->
  scaled m e 0 = (n, d) ->
  near num (Zpos den) n d ->
  round_Q s (Qmake num den) = S754_finite s m e.
Proof.
  intros s num den m e n d Hnum Hb Hv Hnear. unfold round_Q.
  pose proof (Qred_correct (Qmake num den)) as Hq. unfold Qeq in Hq.
  cbn [Qnum Qden] in Hq.
  set (N := Qnum (Qred (Qmake num den))) in *.
  set (D := Zpos (Qden (Qred (Qmake num den)))) in *.
  assert (HD : 0 < D) by (unfold D; lia).
  assert (Hden : 0 < Zpos den) by lia.
  assert (HN : 0 < N).
  { assert (0 < N * Zpos den) by (rewrite Hq; apply Z.mul_pos_pos; lia).
    destruct (Z_lt_le_dec 0 N) as [|Hneg]; [assumption|exfalso].
    assert (N * Zpos den <= 0 * Zpos den) by (apply Z.mul_le_mono_nonneg_r; lia). lia. }
  apply (round_ratio_near s N D m e n d HN HD Hb Hv).
  unfold near in *.
  assert (H1 : D * (Z.abs (num * d - n * Zpos den) * (2 * 10 ^ 16)) <= D * (n * Zpos den))
    by (apply Z.mul_le_mono_nonneg_l; lia).
  replace (D * (Z.abs (num * d - n * Zpos den) * (2 * 10 ^ 16)))
    with (Z.abs D * Z.abs (num * d - n * Zpos den) * (2 * 10 ^ 16)) in H1
    by (rewrite (Z.abs_eq D) by lia; ring).
  rewrite <- Z.abs_mul in H1.
  replace (D * (num * d - n * Zpos den)) with (Zpos den * (N * d - n * D)) in H1
    by (transitivity (N * Zpos den * d - n * D * Zpos den); [ring|rewrite Hq; ring]).
  rewrite Z.abs_mul, (Z.abs_eq (Zpos den)) in H1 by lia.
  replace (D * (n * Zpos den)) with (Zpos den * (n * D)) in H1 by ring.
  rewrite <- Z.mul_assoc in H1.
  apply Z.mul_le_mono_pos_l in H1; [exact H1|exact Hden].
Qed.

(** *** The decimal of 17 digits *)

Lemma pow10_split : forall t k, k < 0 -> 0 <= t -> t = k + 16 -> 10 ^ 16 = 10 ^ t * 10 ^ (- k).
Proof. intros t k Hk Ht ->. rewrite <- Z.pow_add_r by lia. f_equal. lia. Qed.

Lemma pow10_split_neg : forall t k, t < 0 -> t = k + 16 -> 10 ^ (- k) = 10 ^ (- t) * 10 ^ 16.
Proof. intros t k Ht ->. rewrite <- Z.pow_add_r by lia. f_equal. lia. Qed.

Lemma nearest17 : forall s t n d m e a b,
  bounded prec emax m e = true ->
  scaled m e 0 = (n, d) ->
  pow10_le t n d = true ->
  over_pow10 (t - 16) n d = (a, b) ->
  0 < round_half_even a b /\
  round_decimal s (round_half_even a b) (t - 16) = S754_finite s m e.
Proof.
  intros s t n d m e a b Hb Hv Ht Hab.
  destruct (scaled_positive _ _ _ _ _ Hv) as [Hn Hd].
  set (k := t - 16) in *. set (c := round_half_even a b).
  unfold over_pow10 in Hab. unfold pow10_le in Ht.
  unfold round_decimal, decimal_value.
  destruct (Z.leb_spec 0 k) as [Hk|Hk]; apply pair_equal_spec in Hab; destruct Hab as [Ha Hb'].
  - (* k >= 0 *)
    assert (HP : 0 < 10 ^ k) by (apply Z.pow_pos_nonneg; lia).
    assert (Ht10 : 10 ^ t = 10 ^ k * 10 ^ 16)
      by (rewrite <- Z.pow_add_r by lia; f_equal; unfold k; lia).
    destruct (Z.leb_spec 0 t) as [_|]; [|unfold k in Hk; lia].
    apply Z.leb_le in Ht. rewrite Ht10 in Ht.
    assert (Hbpos : 0 < b) by (subst b; apply Z.mul_pos_pos; lia).
    pose proof (round_half_even_error a b Hbpos) as Herr. fold c in Herr.
    assert (Hlow : 10 ^ 16 <= c).
    { apply round_half_even_lower; [exact Hbpos|]. subst a b. lia. }
    change (10 ^ 16) with 10000000000000000 in *.
    split; [lia|].
    assert (Hc : 0 < c * 10 ^ k) by (apply Z.mul_pos_pos; lia).
    apply (round_Q_near s (c * 10 ^ k) 1 m e n d Hc Hb Hv).
    unfold near. change (10 ^ 16) with 10000000000000000.
    subst a b. lia.
  - (* k < 0 *)
    assert (HR : 0 < 10 ^ (- k)) by (apply Z.pow_pos_nonneg; lia).
    assert (Hbpos : 0 < b) by lia.
    pose proof (round_half_even_error a b Hbpos) as Herr. fold c in Herr.
    assert (Hscale : d * 10 ^ 16 <= n * 10 ^ (- k)).
    { destruct (Z.leb_spec 0 t) as [Ht0|Ht0].
      - apply Z.leb_le in Ht.
        rewrite (pow10_split t k Hk Ht0 ltac:(unfold k; lia)).
        replace (d * (10 ^ t * 10 ^ (- k))) with (d * 10 ^ t * 10 ^ (- k)) by ring.
        apply Z.mul_le_mono_nonneg_r; lia.
      - apply Z.leb_le in Ht.
        rewrite (pow10_split_neg t k Ht0 ltac:(unfold k; lia)).
        change (10 ^ 16) with 10000000000000000. lia. }
    assert (Hlow : 10 ^ 16 <= c).
    { apply round_half_even_lower; [exact Hbpos|]. subst a b. lia. }
    change (10 ^ 16) with 10000000000000000 in *.
    split; [lia|].
    apply (round_Q_near s c (Z.to_pos (10 ^ (- k))) m e n d ltac:(lia) Hb Hv).
    unfold near. rewrite Z2Pos.id by exact HR.
    change (10 ^ 16) with 10000000000000000.
    subst a b. lia.
Qed.

(** *** The search of the exponent *)

Lemma floor_log10_from_spec : forall fuel t n d,
  pow10_le (floor_log10_from fuel t n d) n d = true \/
  floor_log10_from fuel t n d = t - Z.of_nat fuel.
Proof.
  induction fuel as [|f IH]; intros t n d.
  - right. cbn [floor_log10_from]. lia.
  - cbn [floor_log10_from]. destruct (pow10_le t n d) eqn:E.
    + left. exact E.
    + destruct (IH (t - 1) n d) as [H|H]; [left; exact H|right].
      rewrite H. lia.
Qed.

Lemma floor_log10_spec : forall m e n d,
  bounded prec emax m e = true ->
  scaled m e 0 = (n, d) ->
  pow10_le (floor_log10 n d) n d = true.
Proof.
  intros m e n d Hb Hv. unfold floor_log10.
  destruct (floor_log10_from_spec 632 308 n d) as [H|H]; [exact H|].
  rewrite H. change (308 - Z.of_nat 632) with (-324).
  unfold pow10_le. change (0 <=? -324) with false. cbv iota.
  change (- -324) with 324.
  apply bounded_spec in Hb. destruct Hb as [_ [He _]].
  destruct (scaled_positive _ _ _ _ _ Hv) as [Hn Hd].
  rewrite scaled_zero in Hv. apply pair_equal_spec in Hv. destruct Hv as [_ Hd'].
  apply Z.leb_le.
  assert (Hbig : 2 ^ 1074 <= 10 ^ 324) by (vm_compute; discriminate).
  assert (Hdle : d <= 2 ^ 1074).
  { subst d. destruct (Z.leb_spec 0 e).
    - apply Z.le_trans with (2 ^ 0); [reflexivity|]. apply Z.pow_le_mono_r; lia.
    - apply Z.pow_le_mono_r; lia. }
  apply Z.le_trans with (1 * 10 ^ 324); [lia|].
  apply Z.mul_le_mono_nonneg_r; [|lia]. apply Z.pow_nonneg. lia.
Qed.

(** *** Decimals of the same value *)

Lemma decimal_value_shift : forall c k K, 0 <= K -> - K <= k ->
  Qnum (decimal_value c k) * 10 ^ K = c * 10 ^ (k + K) * Zpos (Qden (decimal_value c k)).
Proof.
  intros c k K HK Hk. unfold decimal_value.
  destruct (Z.leb_spec 0 k) as [H|H]; cbn [Qnum Qden].
  - rewrite Z.pow_add_r by lia. ring.
  - assert (0 < 10 ^ (- k)) by (apply Z.pow_pos_nonneg; lia).
    rewrite Z2Pos.id by assumption.
    replace (10 ^ K) with (10 ^ (k + K) * 10 ^ (- k))
      by (rewrite <- Z.pow_add_r by lia; f_equal; lia).
    ring.
Qed.

Lemma decimal_value_eq : forall c k c' k' K, 0 <= K -> - K <= k -> - K <= k' ->
  c * 10 ^ (k + K) = c' * 10 ^ (k' + K) ->
  Qeq (decimal_value c k) (decimal_value c' k').
Proof.
  intros c k c' k' K HK Hk Hk' H. unfold Qeq.
  pose proof (decimal_value_shift c k K HK Hk) as H1.
  pose proof (decimal_value_shift c' k' K HK Hk') as H2.
  assert (HP : 0 < 10 ^ K) by (apply Z.pow_pos_nonneg; lia).
  apply Z.mul_reg_r with (10 ^ K); [lia|].
  set (n1 := Qnum (decimal_value c k)) in *.
  set (d1 := Zpos (Qden (decimal_value c k))) in *.
  set (n2 := Qnum (decimal_value c' k')) in *.
  set (d2 := Zpos (Qden (decimal_value c' k'))) in *.
  transitivity (n1 * 10 ^ K * d2); [ring|]. rewrite H1, H.
  transitivity (n2 * 10 ^ K * d1); [rewrite H2; ring|ring].
Qed.

Lemma round_decimal_compat : forall s c k c' k' K, 0 <= K -> - K <= k -> - K <= k' ->
  c * 10 ^ (k + K) = c' * 10 ^ (k' + K) ->
  round_decimal s c k = round_decimal s c' k'.
Proof.
  intros. unfold round_decimal. apply round_Q_compat. eapply decimal_value_eq; eauto.
Qed.

Lemma strip_zeros_spec : forall fuel c k c' k',
  strip_zeros fuel c k = (c', k') -> 0 <= c ->
  0 <= c' /\ k <= k' /\ c = c' * 10 ^ (k' - k).
Proof.
  induction fuel as [|f IH]; intros c k c' k' H Hc; cbn [strip_zeros] in H.
  - injection H as <- <-. rewrite Z.sub_diag. cbn. lia.
  - destruct ((c mod 10 =? 0) && negb (c =? 0)) eqn:E.
    + apply andb_true_iff in E. destruct E as [E _]. apply Z.eqb_eq in E.
      assert (Hdiv : c = 10 * (c / 10)) by (pose proof (Z.div_mod c 10); lia).
      destruct (IH _ _ _ _ H ltac:(apply Z.div_pos; lia)) as [H1 [H2 H3]].
      split; [exact H1|]. split; [lia|].
      replace (k' - k) with (Z.succ (k' - (k + 1))) by lia.
      rewrite Z.pow_succ_r by lia. rewrite Hdiv at 1. rewrite H3. ring.
    + injection H as <- <-. rewrite Z.sub_diag. cbn. lia.
Qed.

Lemma strip_zeros_round : forall s fuel c k c' k',
  strip_zeros fuel c k = (c', k') -> 0 <= c ->
  0 <= c' /\ round_decimal s c' k' = round_decimal s c k.
Proof.
  intros s fuel c k c' k' H Hc.
  destruct (strip_zeros_spec _ _ _ _ _ H Hc) as [H1 [H2 H3]].
  split; [exact H1|].
  apply (round_decimal_compat s c' k' c k (Z.abs k + Z.abs k')); try lia.
  rewrite H3.
  replace (k' + (Z.abs k + Z.abs k')) with ((k' - k) + (k + (Z.abs k + Z.abs k'))) by lia.
  rewrite (Z.pow_add_r 10 (k' - k)) by lia. ring.
Qed.

(** *** The search of the digits *)

Lemma round_half_even_cases : forall a b,
  round_half_even a b = a / b \/ round_half_even a b = a / b + 1.
Proof.
  intros a b. unfold round_half_even.
  destruct (2 * (a mod b) ?= b); [destruct (Z.even (a / b))| |]; auto.
Qed.

Lemma over_pow10_positive : forall k n d a b,
  0 < n -> 0 < d -> over_pow10 k n d = (a, b) -> 0 < a /\ 0 < b.
Proof.
  intros k n d a b Hn Hd H. unfold over_pow10 in H.
  destruct (Z.leb_spec 0 k); apply pair_equal_spec in H; destruct H as [<- <-].
  - assert (0 < 10 ^ k) by (apply Z.pow_pos_nonneg; lia).
    split; [lia|apply Z.mul_pos_pos; lia].
  - assert (0 < 10 ^ (- k)) by (apply Z.pow_pos_nonneg; lia).
    split; [apply Z.mul_pos_pos; lia|lia].
Qed.

Lemma shortest_from_spec : forall fuel len t n d m e c k,
  Z.of_nat fuel + len = 17 ->
  bounded prec emax m e = true ->
  scaled m e 0 = (n, d) ->
  pow10_le t n d = true ->
  shortest_from fuel len t n d (S754_finite false m e) = (c, k) ->
  0 <= c /\ round_decimal false c k = S754_finite false m e.
Proof.
  induction fuel as [|f IH]; intros len t n d m e c k Hlen Hb Hv Ht H.
  - cbn [shortest_from] in H.
    replace (t - (len - 1)) with (t - 16) in H by lia.
    destruct (over_pow10 (t - 16) n d) as [a b] eqn:Hab.
    injection H as <- <-.
    destruct (nearest17 false t n d m e a b Hb Hv Ht Hab) as [H1 H2].
    split; [lia|exact H2].
  - cbn [shortest_from] in H.
    destruct (over_pow10 (t - (len - 1)) n d) as [a b] eqn:Hab.
    destruct (scaled_positive _ _ _ _ _ Hv) as [Hn Hd].
    destruct (over_pow10_positive _ _ _ _ _ Hn Hd Hab) as [Ha Hb'].
    assert (Hlo : 0 <= a / b) by (apply Z.div_pos; lia).
    destruct (same (round_decimal false (a / b) (t - (len - 1))) (S754_finite false m e)) eqn:E1;
      destruct (same (round_decimal false (a / b + 1) (t - (len - 1))) (S754_finite false m e)) eqn:E2.
    + injection H as <- <-.
      destruct (round_half_even_cases a b) as [-> | ->].
      * split; [lia|apply same_eq; exact E1].
      * split; [lia|apply same_eq; exact E2].
    + injection H as <- <-. split; [lia|apply same_eq; exact E1].
    + injection H as <- <-. split; [lia|apply same_eq; exact E2].
    + apply (IH (len + 1) t n d m e c k); try assumption. lia.
Qed.

(** The decimal that [repr] writes reads back as the number. *)
Lemma shortest_decimal_spec : forall s m e c k,
  bounded prec emax m e = true ->
  shortest_decimal m e = (c, k) ->
  0 <= c /\ round_decimal s c k = S754_finite s m e.
Proof.
  intros s m e c k Hb H. unfold shortest_decimal in H.
  destruct (scaled m e 0) as [n d] eqn:Hv.
  destruct (shortest_from 16 1 (floor_log10 n d) n d (S754_finite false m e)) as [c0 k0] eqn:Hs.
  destruct (shortest_from_spec 16 1 _ n d m e c0 k0 ltac:(reflexivity) Hb Hv
              (floor_log10_spec m e n d Hb Hv) Hs) as [Hc0 Hr].
  destruct (strip_zeros_round false 17 c0 k0 c k H Hc0) as [Hc Hr'].
  split; [exact Hc|]. apply round_decimal_sign. rewrite Hr'. exact Hr.
Qed.

End ShortestFacts.

(** ** Facts about writing and reading decimals *)

Module ReprFacts.

Import Text Numeral Float64 Spec NumeralFacts SplitFacts FixedFacts RoundFacts ShortestFacts.

Lemma digits_value_zeros : forall j a,
  digits_value a (zeros j) = Some (a * 10 ^ Z.of_nat j).
Proof.
  induction j as [|j IH]; intros a.
  - cbn. f_equal. lia.
  - change (zeros (S j)) with ("0"%char :: zeros j). cbn [digits_value].
    change (digit_value "0"%char) with (Some 0). cbv iota beta. rewrite IH.
    rewrite Nat2Z.inj_succ, Z.pow_succ_r by lia. f_equal. ring.
Qed.

Lemma digits_value_leading_zeros : forall j l,
  digits_value 0 (zeros j ++ l) = digits_value 0 l.
Proof.
  intros j l. rewrite digits_value_app, digits_value_zeros. reflexivity.
Qed.

Lemma digits_value_padded : forall w n, 0 <= n ->
  digits_value 0 (pad_left w (digits n)) = Some n.
Proof.
  intros w n Hn. unfold pad_left.
  rewrite digits_value_leading_zeros. now apply digits_value_digits.
Qed.

Lemma pad_left_nonempty : forall w l, l <> [] -> pad_left w l <> [].
Proof.
  intros w l H E. unfold pad_left in E. apply app_eq_nil in E. tauto.
Qed.

(** The exponent of the scientific notation reads back. *)
Lemma parse_exponent_written : forall x,
  parse_exponent ((if x <? 0 then "-"%char else "+"%char) :: pad_left 2 (digits (Z.abs x))) =
  Some x.
Proof.
  intros x. unfold parse_exponent.
  pose proof (pad_left_nonempty 2 _ (digits_nonempty (Z.abs x))) as Hne.
  pose proof (digits_value_padded 2 (Z.abs x) (Z.abs_nonneg x)) as Hv.
  destruct (pad_left 2 (digits (Z.abs x))) as [|p ps] eqn:E; [congruence|].
  destruct (Z.ltb_spec x 0).
  - change (Ascii.eqb "-"%char "-"%char) with true. cbv iota.
    rewrite Hv. cbn [option_map]. f_equal. lia.
  - change (Ascii.eqb "+"%char "-"%char) with false.
    change (Ascii.eqb "+"%char "+"%char) with true. cbv iota.
    rewrite Hv. f_equal. lia.
Qed.

(** A text put together from an integer part, a fraction and an
    exponent is read as these parts. *)
Lemma parse_decimal_assembled : forall ip fp xs cv x,
  forallb is_digit ip = true ->
  forallb is_digit (opt_list fp) = true ->
  (ip ++ opt_list fp)%list <> [] ->
  digits_value 0 (ip ++ opt_list fp) = Some cv ->
  match xs with Some l => parse_exponent l | None => Some 0 end = Some x ->
  parse_decimal (ip ++ dot_part fp ++ exp_part xs) =
  Some (cv, x - Z.of_nat (List.length (opt_list fp))).
Proof.
  intros ip fp xs cv x Hip Hfp Hne Hv Hx. unfold parse_decimal.
  assert (Hmant : forallb (fun a => negb (Ascii.eqb a "e"%char)) (ip ++ dot_part fp) = true).
  { rewrite forallb_app. rewrite (digits_avoid "e"%char ip) by (reflexivity || assumption).
    destruct fp as [f|]; [|reflexivity]. cbn [dot_part forallb].
    cbn [opt_list] in Hfp. rewrite (digits_avoid "e"%char f) by (reflexivity || assumption).
    reflexivity. }
  assert (Hcut1 : cut "e"%char (ip ++ dot_part fp ++ exp_part xs) = ((ip ++ dot_part fp)%list, xs)).
  { rewrite app_assoc. destruct xs as [l|]; cbn [exp_part].
    - now apply cut_app.
    - rewrite app_nil_r. now apply cut_none. }
  rewrite Hcut1.
  assert (Hcut2 : cut "."%char (ip ++ dot_part fp) = (ip, fp)).
  { destruct fp as [f|]; cbn [dot_part].
    - apply cut_app. apply digits_avoid; [reflexivity|assumption].
    - rewrite app_nil_r. apply cut_none. apply digits_avoid; [reflexivity|assumption]. }
  rewrite Hcut2. fold (opt_list fp).
  destruct (ip ++ opt_list fp)%list as [|a l] eqn:E; [congruence|].
  rewrite Hv, Hx. reflexivity.
Qed.

(** The text of a decimal is read as a decimal of the same value. *)
Lemma decimal_text_reads : forall s c k, 0 <= c ->
  exists c' k',
    parse_decimal (decimal_text c k) = Some (c', k') /\
    round_decimal s c' k' = round_decimal s c k.
Proof.
  intros s c k Hc. unfold decimal_text.
  pose proof (digits_are_digits c) as Hds.
  pose proof (digits_nonempty c) as Hne.
  pose proof (digits_value_digits c Hc) as Hval.
  remember (digits c) as ds eqn:Eds. clear Eds.
  remember (Z.of_nat (List.length ds)) as len eqn:Elen.
  assert (Hlen : 1 <= len) by (destruct ds; [congruence|cbn [List.length] in Elen; lia]).
  remember (len + k) as decpt eqn:Edec.
  destruct ((-4 <? decpt) && (decpt <=? 16)) eqn:Hfix.
  - destruct (Z.leb_spec decpt 0) as [H0|H0].
    + (* 0.000ddd *)
      exists c, k. split; [|reflexivity].
      set (z := Z.to_nat (- decpt)).
      replace ("0"%char :: "."%char :: zeros z ++ ds)%list
        with (["0"%char] ++ dot_part (Some (zeros z ++ ds)%list) ++ exp_part None)%list
        by (cbn [dot_part exp_part app]; rewrite app_nil_r; reflexivity).
      rewrite (parse_decimal_assembled ["0"%char] (Some (zeros z ++ ds)%list) None c 0).
      * cbn [opt_list]. rewrite length_app. unfold zeros at 1. rewrite repeat_length.
        do 2 f_equal. unfold z. lia.
      * reflexivity.
      * cbn [opt_list]. rewrite forallb_app, zeros_are_digits. exact Hds.
      * discriminate.
      * cbn [opt_list]. change (["0"%char] ++ zeros z ++ ds)%list with (zeros (S z) ++ ds)%list.
        rewrite digits_value_leading_zeros. exact Hval.
      * reflexivity.
    + destruct (Z.ltb_spec decpt len) as [H1|H1].
      * (* ddd.ddd *)
        exists c, k. split; [|reflexivity].
        set (i := Z.to_nat decpt).
        assert (Hparts : forallb is_digit (firstn i ds) = true /\ forallb is_digit (skipn i ds) = true).
        { rewrite <- (firstn_skipn i ds), forallb_app in Hds. now apply andb_true_iff in Hds. }
        destruct Hparts as [Hf Hs].
        replace (firstn i ds ++ "."%char :: skipn i ds)%list
          with (firstn i ds ++ dot_part (Some (skipn i ds)) ++ exp_part None)%list
          by (cbn [dot_part exp_part app]; rewrite app_nil_r; reflexivity).
        rewrite (parse_decimal_assembled (firstn i ds) (Some (skipn i ds)) None c 0).
        -- cbn [opt_list]. rewrite length_skipn. do 2 f_equal. unfold i. lia.
        -- exact Hf.
        -- exact Hs.
        -- cbn [opt_list]. rewrite firstn_skipn. exact Hne.
        -- cbn [opt_list]. rewrite firstn_skipn. exact Hval.
        -- reflexivity.
      * (* ddd000.0 *)
        set (j := Z.to_nat (decpt - len)).
        exists (10 * (c * 10 ^ Z.of_nat j) + 0), (-1). split.
        -- replace (ds ++ zeros j ++ ["."%char; "0"%char])%list
             with ((ds ++ zeros j) ++ dot_part (Some ["0"%char]) ++ exp_part None)%list
             by (cbn [dot_part exp_part app]; rewrite <- app_assoc; reflexivity).
           rewrite (parse_decimal_assembled (ds ++ zeros j)%list (Some ["0"%char]) None
                      (10 * (c * 10 ^ Z.of_nat j) + 0) 0).
           ++ reflexivity.
           ++ rewrite forallb_app, zeros_are_digits, Hds. reflexivity.
           ++ reflexivity.
           ++ cbn [opt_list]. intros E. apply app_eq_nil in E. destruct E as [_ E]. discriminate E.
           ++ cbn [opt_list]. rewrite !digits_value_app, Hval, digits_value_zeros. reflexivity.
           ++ reflexivity.
        -- apply (round_decimal_compat s _ (-1) c k 1); try lia.
           replace (k + 1) with (Z.succ (Z.of_nat j)) by (unfold j; lia).
           rewrite Z.pow_succ_r by lia. change (10 ^ (-1 + 1)) with 1. ring.
  - (* d.ddde+xx *)
    exists c, k. split; [|reflexivity].
    destruct ds as [|a0 rest]; [congruence|].
    cbn [firstn skipn].
    set (x := decpt - 1).
    set (xs := ((if x <? 0 then "-"%char else "+"%char) :: pad_left 2 (digits (Z.abs x)))).
    set (fp := match rest with [] => None | _ => Some rest end).
    replace ([a0] ++ match rest with [] => [] | a :: l => "."%char :: a :: l end ++ "e"%char :: xs)%list
      with ([a0] ++ dot_part fp ++ exp_part (Some xs))%list
      by (unfold fp; destruct rest; reflexivity).
    assert (Hfp : opt_list fp = rest) by (unfold fp; destruct rest; reflexivity).
    rewrite (parse_decimal_assembled [a0] fp (Some xs) c x).
    + rewrite Hfp. do 2 f_equal. cbn [List.length] in Elen. unfold x. lia.
    + cbn [forallb] in Hds |- *. apply andb_true_iff in Hds. now rewrite (proj1 Hds).
    + rewrite Hfp. cbn [forallb] in Hds. apply andb_true_iff in Hds. exact (proj2 Hds).
    + discriminate.
    + rewrite Hfp. exact Hval.
    + apply parse_exponent_written.
Qed.

Lemma decimal_text_head : forall c k,
  exists a t, decimal_text c k = a :: t /\ is_digit a = true.
Proof.
  intros c k. unfold decimal_text.
  pose proof (digits_are_digits c) as Hds.
  pose proof (digits_nonempty c) as Hne.
  destruct (digits c) as [|a0 rest]; [congruence|].
  cbn [forallb] in Hds. apply andb_true_iff in Hds. destruct Hds as [Ha _].
  set (len := Z.of_nat (List.length (a0 :: rest))).
  assert (Hlen : 1 <= len) by (unfold len; cbn [List.length]; lia).
  destruct ((-4 <? len + k) && (len + k <=? 16)).
  - destruct (Z.leb_spec (len + k) 0).
    + eexists _, _. split; reflexivity.
    + destruct (len + k <? len).
      * destruct (Z.to_nat (len + k)) as [|i] eqn:E; [lia|].
        cbn [firstn app]. eexists _, _. split; [reflexivity|exact Ha].
      * cbn [app]. eexists _, _. split; [reflexivity|exact Ha].
  - cbn [firstn app]. eexists _, _. split; [reflexivity|exact Ha].
Qed.

Lemma decimal_text_numeric : forall c k, forallb numeric_char (decimal_text c k) = true.
Proof.
  intros c k. unfold decimal_text.
  pose proof (digits_numeric _ (digits_are_digits c)) as Hds.
  set (ds := digits c) in *.
  assert (Hz : forall j, forallb numeric_char (zeros j) = true)
    by (intros j; apply digits_numeric, zeros_are_digits).
  destruct ((-4 <? _) && _).
  - destruct (_ <=? 0).
    + cbn [forallb]. rewrite forallb_app, Hz, Hds. reflexivity.
    + destruct (_ <? _).
      * rewrite <- (firstn_skipn (Z.to_nat (Z.of_nat (List.length ds) + k)) ds), forallb_app in Hds.
        apply andb_true_iff in Hds. destruct Hds as [H1 H2].
        rewrite forallb_app. cbn [forallb]. rewrite H1, H2. reflexivity.
      * rewrite !forallb_app, Hds, Hz. reflexivity.
  - rewrite <- (firstn_skipn 1 ds), forallb_app in Hds.
    apply andb_true_iff in Hds. destruct Hds as [H1 H2].
    rewrite !forallb_app, H1.
    assert (Hfrac : forallb numeric_char
                      match skipn 1 ds with [] => [] | a :: l => "."%char :: a :: l end = true)
      by (destruct (skipn 1 ds); [reflexivity|cbn [forallb]; cbn [forallb] in H2; rewrite H2; reflexivity]).
    rewrite Hfrac. cbn [forallb andb].
    rewrite (digits_numeric _ (pad_left_are_digits 2 _ (digits_are_digits _))).
    destruct (_ <? 0); reflexivity.
Qed.

End ReprFacts.

(** ** Facts about the CSV text *)

Module CsvFacts.

Import Text Numeral Float64 Lib App Spec.
Import TextFacts NumeralFacts SplitFacts FixedFacts RoundFacts ShortestFacts ReprFacts.

Lemma digit_differs : forall a c, is_digit a = true -> is_digit c = false -> Ascii.eqb a c = false.
Proof.
  intros a c Ha Hc. destruct (Ascii.eqb_spec a c) as [->|]; [congruence|reflexivity].
Qed.

(** [float(repr(x)) == x], also for the zeros and the infinities. *)
Lemma repr_reads : forall v, valid v = true -> parse (repr v) = Some v.
Proof.
  intros [s|s| |s m e] Hv.
  - destruct s; vm_compute; reflexivity.
  - destruct s; vm_compute; reflexivity.
  - vm_compute; reflexivity.
  - unfold valid in Hv. cbn [valid_binary] in Hv. unfold repr.
    destruct (shortest_decimal m e) as [c k] eqn:Hs.
    destruct (shortest_decimal_spec s m e c k Hv Hs) as [Hc Hr].
    destruct (decimal_text_head c k) as [a [t [Et Ha]]].
    destruct (decimal_text_reads s c k Hc) as [c' [k' [Hp Hr']]].
    unfold parse. rewrite list_ascii_of_string_of_list_ascii.
    assert (Hu : parse_unsigned s (a :: t) = Some (S754_finite s m e)).
    { unfold parse_unsigned. cbn [string_of_list_ascii String.eqb].
      rewrite (digit_differs a "i"%char Ha eq_refl), (digit_differs a "n"%char Ha eq_refl).
      cbn [andb]. rewrite <- Et, Hp, Hr', Hr. reflexivity. }
    rewrite Et. destruct s; cbn [sign_text app].
    + change (Ascii.eqb "-"%char "-"%char) with true. cbv iota. exact Hu.
    + rewrite (digit_differs a "-"%char Ha eq_refl). exact Hu.
Qed.

Lemma repr_numeric : forall v, forallb numeric_char (list_ascii_of_string (repr v)) = true.
Proof.
  intros [s|s| |s m e]; unfold repr; rewrite list_ascii_of_string_of_list_ascii.
  - destruct s; reflexivity.
  - destruct s; reflexivity.
  - reflexivity.
  - destruct (shortest_decimal m e) as [c k].
    rewrite forallb_app, sign_text_numeric, decimal_text_numeric. reflexivity.
Qed.

Lemma repr_nonempty : forall v, String.eqb (repr v) "" = false.
Proof.
  intros [s|s| |s m e]; unfold repr.
  - destruct s; reflexivity.
  - destruct s; reflexivity.
  - reflexivity.
  - destruct (shortest_decimal m e) as [c k].
    destruct (decimal_text_head c k) as [a [t [Et _]]]. rewrite Et.
    destruct s; reflexivity.
Qed.

Lemma csv_cell_reads : forall v, valid v = true -> read_cell (csv_cell v) = Some v.
Proof.
  intros v Hv. unfold read_cell.
  destruct v as [s|s| |s m e]; try reflexivity; cbn [csv_cell];
    rewrite repr_nonempty; now apply repr_reads.
Qed.

Lemma csv_cell_avoids : forall c v, numeric_char c = false -> avoids c (csv_cell v) = true.
Proof.
  intros c v Hc.
  assert (H : avoids c (repr v) = true).
  { rewrite <- (string_of_list_ascii_of_string (repr v)).
    apply avoids_numeric; [exact Hc|apply repr_numeric]. }
  destruct v; try exact H. reflexivity.
Qed.

Lemma row_body_reads : forall r,
  (let '(a, b, c) := r in valid a && valid b && valid c) = true ->
  read_row (row_body r) = Some r.
Proof.
  intros [[a b] c] H.
  apply andb_true_iff in H. destruct H as [H Hc].
  apply andb_true_iff in H. destruct H as [Ha Hb].
  unfold read_row.
  change (row_body (a, b, c))
    with (csv_cell a ++ String ","%char (csv_cell b ++ String ","%char (csv_cell c))).
  rewrite !split_app, split_avoids by (apply csv_cell_avoids; reflexivity).
  rewrite !csv_cell_reads by assumption. reflexivity.
Qed.

Lemma row_body_avoids_newline : forall r, avoids "010"%char (row_body r) = true.
Proof.
  intros [[a b] c]. unfold row_body.
  rewrite !avoids_app, !csv_cell_avoids by reflexivity. reflexivity.
Qed.

Lemma csv_row_body : forall r rest, csv_row r ++ rest = row_body r ++ String "010"%char rest.
Proof.
  intros [[a b] c] rest. unfold csv_row, row_body, LF.
  rewrite !append_assoc. reflexivity.
Qed.

Lemma concat_cons : forall x l, String.concat "" (x :: l) = x ++ String.concat "" l.
Proof.
  intros x [|y l]; [cbn [String.concat]; now rewrite append_nil_r|reflexivity].
Qed.

(** The lines of the data of a CSV: one per row, then the empty piece
    after the last terminator. *)
Lemma csv_lines : forall df,
  split "010"%char (String.concat "" (map csv_row df)) = (map row_body df ++ [""])%list.
Proof.
  induction df as [|r df IH]; [reflexivity|].
  cbn [map]. rewrite concat_cons, csv_row_body, split_app by apply row_body_avoids_newline.
  rewrite IH. reflexivity.
Qed.

Lemma read_rows_lines : forall df,
  Forall (fun r => read_row (row_body r) = Some r) df ->
  read_rows (map row_body df ++ [""]) = Some df.
Proof.
  induction df as [|r df IH]; intros H; [reflexivity|].
  apply Forall_cons_iff in H. destruct H as [Hr Hdf]. specialize (IH Hdf).
  cbn [map app]. cbn [read_rows].
  assert (E : exists l ls, (map row_body df ++ [""])%list = l :: ls).
  { destruct (map row_body df) as [|l ls]; cbn [app]; eauto. }
  destruct E as [l [ls E]]. rewrite E in *.
  rewrite Hr, IH. reflexivity.
Qed.

Lemma rows_in : forall x y z a b c,
  In (a, b, c) (rows x y z) -> In a x /\ In b y /\ In c z.
Proof.
  induction x as [|a0 x IH]; intros [|b0 y] [|c0 z] a b c H; simpl in H; try contradiction.
  destruct H as [H|H].
  - injection H as <- <- <-. simpl; auto.
  - destruct (IH _ _ _ _ _ H) as [H1 [H2 H3]]. simpl; auto.
Qed.

Lemma rows_columns : forall x y z : list float64,
  List.length x = List.length y -> List.length y = List.length z ->
  columns (rows x y z) = (x, y, z).
Proof.
  induction x as [|a x IH]; intros [|b y] [|c z] H1 H2; simpl in *; try congruence;
    [reflexivity|].
  specialize (IH y z ltac:(congruence) ltac:(congruence)).
  unfold columns in *. injection IH as E1 E2 E3. simpl. now rewrite E1, E2, E3.
Qed.

End CsvFacts.

(** ** Facts about the script *)

Module AppFacts.

Import Text Numeral Float64 Lib App Spec TextFacts.

Lemma mismatched_true : forall x y z : list float64,
  ~ (List.length x = List.length y /\ List.length y = List.length z) ->
  mismatched x y z = true.
Proof.
  intros x y z H. unfold mismatched.
  destruct (Nat.eqb_spec (List.length x) (List.length y)) as [E1|E1];
    destruct (Nat.eqb_spec (List.length y) (List.length z)) as [E2|E2];
    try reflexivity.
  exfalso; apply H; split; assumption.
Qed.

Lemma mismatched_false : forall x y z : list float64,
  List.length x = List.length y -> List.length y = List.length z ->
  mismatched x y z = false.
Proof.
  intros x y z H1 H2. unfold mismatched.
  rewrite H1, H2, Nat.eqb_refl. reflexivity.
Qed.

Lemma html_like_looks_like_html : forall r, html_like r -> looks_like_html r = true.
Proof.
  intros r [H|[H|[H|[ct [Hct H]]]]]; unfold looks_like_html, bytes_of.
  - apply begins_with_ci_startswith in H. rewrite H. reflexivity.
  - apply begins_with_ci_startswith in H. rewrite H. apply orb_true_iff. left.
    apply orb_true_iff. left. apply orb_true_r.
  - apply begins_with_ci_startswith in H. rewrite H. apply orb_true_iff. left.
    apply orb_true_r.
  - rewrite Hct. apply contains_lower in H. change (lower "html") with "html" in H.
    rewrite H. apply orb_true_r.
Qed.

(** The upload branch on a decoded file whose arrays pass the check. *)
Lemma upload_try_ok : forall laspy_read f fmt las,
  laspy_read (file_bytes f) = inr las ->
  mismatched (atleast_1d (las_x las)) (atleast_1d (las_y las)) (atleast_1d (las_z las)) = false ->
  upload_try laspy_read f fmt =
  ([st_spinner "Reading LAZ file...";
    laspy_read_call (file_bytes f);
    st_success ("Loaded " ++ format_thousands (List.length (atleast_1d (las_x las))) ++ " points successfully ✅");
    match fmt with
    | CSV => st_download_button "📥 Download CSV file"
               (encode_utf8 (to_csv (DataFrame (atleast_1d (las_x las)) (atleast_1d (las_y las)) (atleast_1d (las_z las)))))
               (replace (name f) ".laz" ".csv") "text/csv"
    | XYZ => st_download_button "📥 Download XYZ file"
               (encode_utf8 (xyz_str (column_stack (atleast_1d (las_x las)) (atleast_1d (las_y las)) (atleast_1d (las_z las)))))
               (replace (name f) ".laz" ".xyz") "text/plain"
    end], inr tt).
Proof.
  intros laspy_read f fmt las Hd Hm.
  unfold upload_try, call_laspy_read. rewrite Hd. cbn [bind emit ret].
  rewrite Hm. destruct fmt; reflexivity.
Qed.

Lemma upload_try_mismatch : forall laspy_read f fmt las,
  laspy_read (file_bytes f) = inr las ->
  mismatched (atleast_1d (las_x las)) (atleast_1d (las_y las)) (atleast_1d (las_z las)) = true ->
  upload_try laspy_read f fmt =
  ([st_spinner "Reading LAZ file..."; laspy_read_call (file_bytes f)],
   inl (Exn ValueError "Coordinate arrays have mismatched lengths")).
Proof.
  intros laspy_read f fmt las Hd Hm.
  unfold upload_try, call_laspy_read. rewrite Hd. cbn [bind emit ret].
  rewrite Hm. reflexivity.
Qed.

Lemma upload_try_decoder_error : forall laspy_read f fmt e,
  laspy_read (file_bytes f) = inl e ->
  upload_try laspy_read f fmt =
  ([st_spinner "Reading LAZ file..."; laspy_read_call (file_bytes f)], inl e).
Proof.
  intros laspy_read f fmt e Hd.
  unfold upload_try, call_laspy_read. rewrite Hd. reflexivity.
Qed.

(** The URL branch after a response that passes both tests. *)
Lemma url_try_ok : forall laspy_read r fmt las,
  status_code r = 200%N -> looks_like_html r = false ->
  laspy_read (content r) = inr las ->
  mismatched (atleast_1d (las_x las)) (atleast_1d (las_y las)) (atleast_1d (las_z las)) = false ->
  url_try laspy_read r fmt =
  ([laspy_read_call (content r);
    st_success ("Downloaded and loaded " ++ format_thousands (List.length (atleast_1d (las_x las))) ++ " points");
    match fmt with
    | CSV => st_download_button "📥 Download CSV file"
               (encode_utf8 (to_csv (DataFrame (atleast_1d (las_x las)) (atleast_1d (las_y las)) (atleast_1d (las_z las)))))
               "downloaded_file.csv" "text/csv"
    | XYZ => st_download_button "📥 Download XYZ file"
               (encode_utf8 (xyz_str (column_stack (atleast_1d (las_x las)) (atleast_1d (las_y las)) (atleast_1d (las_z las)))))
               "downloaded_file.xyz" "text/plain"
    end], inr tt).
Proof.
  intros laspy_read r fmt las Hs Hh Hd Hm.
  unfold url_try, call_laspy_read. rewrite Hs, Hh, Hd. cbn [N.eqb Pos.eqb negb bind emit ret].
  rewrite Hm. destruct fmt; reflexivity.
Qed.

Lemma url_try_mismatch : forall laspy_read r fmt las,
  status_code r = 200%N -> looks_like_html r = false ->
  laspy_read (content r) = inr las ->
  mismatched (atleast_1d (las_x las)) (atleast_1d (las_y las)) (atleast_1d (las_z las)) = true ->
  url_try laspy_read r fmt =
  ([laspy_read_call (content r)],
   inl (Exn ValueError "Coordinate arrays have mismatched lengths")).
Proof.
  intros laspy_read r fmt las Hs Hh Hd Hm.
  unfold url_try, call_laspy_read. rewrite Hs, Hh, Hd. cbn [N.eqb Pos.eqb negb bind emit ret].
  rewrite Hm. reflexivity.
Qed.

Lemma url_try_decoder_error : forall laspy_read r fmt e,
  status_code r = 200%N -> looks_like_html r = false ->
  laspy_read (content r) = inl e ->
  url_try laspy_read r fmt = ([laspy_read_call (content r)], inl e).
Proof.
  intros laspy_read r fmt e Hs Hh Hd.
  unfold url_try, call_laspy_read. rewrite Hs, Hh, Hd. reflexivity.
Qed.

Lemma url_try_status : forall laspy_read r fmt,
  status_code r <> 200%N ->
  url_try laspy_read r fmt =
  ([st_error ("HTTP " ++ decimal (Z.of_N (status_code r)) ++ ": " ++ reason r);
    st_write (str_take 1000 (text r))],
   inl (Exn RuntimeError ("HTTP " ++ decimal (Z.of_N (status_code r))))).
Proof.
  intros laspy_read r fmt Hs. unfold url_try.
  apply N.eqb_neq in Hs. rewrite Hs. reflexivity.
Qed.

Lemma url_try_html : forall laspy_read r fmt,
  status_code r = 200%N -> looks_like_html r = true ->
  url_try laspy_read r fmt =
  ([st_error "URL returned HTML (likely an error/redirect page) instead of a .laz file.";
    st_write_decoded (firstn 500 (content r))],
   inl (Exn RuntimeError "URL returned HTML")).
Proof.
  intros laspy_read r fmt Hs Hh. unfold url_try. rewrite Hs, Hh. reflexivity.
Qed.

Lemma url_path_fetched : forall laspy_read requests_get i fmt r,
  nonempty (laz_url i) = true ->
  requests_get (make_request i) = inr r ->
  url_path laspy_read requests_get i fmt =
  bind (emit (st_spinner "Downloading .laz from URL..."))
       (fun _ => try_except (url_try laspy_read r fmt) (url_except (Some r))).
Proof.
  intros laspy_read requests_get i fmt r Hu Hg. unfold url_path. rewrite Hu, Hg. reflexivity.
Qed.

End AppFacts.

(** ** The claims about the two branches *)

Module Claims.

Import Text Numeral Float64 Lib App Spec Cases TextFacts AppFacts.

(** A response whose status is not 200 is reported with its status and
    reason, then as a failure of the fetch; the decoder is not called and
    nothing is offered for download.  The report has the same form for
    every such status. *)
Lemma non_200_status_reported : forall laspy_read requests_get i fmt r,
  nonempty (laz_url i) = true ->
  requests_get (make_request i) = inr r ->
  status_code r <> 200%N ->
  url_path laspy_read requests_get i fmt =
  ([st_spinner "Downloading .laz from URL...";
    st_error ("HTTP " ++ decimal (Z.of_N (status_code r)) ++ ": " ++ reason r);
    st_write (str_take 1000 (text r));
    st_error ("Failed to fetch/parse URL: " ++ "HTTP " ++ decimal (Z.of_N (status_code r)));
    st_info generic_url_hint], inr tt).
Proof.
  intros laspy_read requests_get i fmt r Hu Hg Hs.
  rewrite (url_path_fetched _ _ _ _ _ Hu Hg), (url_try_status _ _ _ Hs).
  reflexivity.
Qed.

(** The classification of the upload branch: a message that names the
    backend leads to the advice to install lazrs. *)
Lemma upload_backend_failure_advises_install : forall laspy_read pip f fmt e,
  laspy_read (file_bytes f) = inl e ->
  is_backend_message (exn_msg e) = true ->
  upload_path laspy_read pip (Some f) fmt false =
  ([st_spinner "Reading LAZ file..."; laspy_read_call (file_bytes f);
    st_error "LAZ backend not available — Streamlit can't decompress .laz data.";
    st_write install_advice], inr tt).
Proof.
  intros laspy_read pip f fmt e Hd Hb. unfold upload_path.
  rewrite (upload_try_decoder_error _ _ _ _ Hd). unfold try_except, upload_except.
  rewrite Hb. reflexivity.
Qed.

(** Any other message is shown as it is. *)
Lemma upload_other_failure_is_generic : forall laspy_read pip f fmt clicked e,
  laspy_read (file_bytes f) = inl e ->
  is_backend_message (exn_msg e) = false ->
  upload_path laspy_read pip (Some f) fmt clicked =
  ([st_spinner "Reading LAZ file..."; laspy_read_call (file_bytes f);
    st_error ("Error converting file: " ++ exn_msg e)], inr tt).
Proof.
  intros laspy_read pip f fmt clicked e Hd Hb. unfold upload_path.
  rewrite (upload_try_decoder_error _ _ _ _ Hd). unfold try_except, upload_except.
  rewrite Hb. reflexivity.
Qed.

(** The URL branch shows every failure of the decoder in the same way. *)
Lemma url_decoder_failure_is_generic : forall laspy_read requests_get i fmt r e,
  nonempty (laz_url i) = true ->
  requests_get (make_request i) = inr r ->
  status_code r = 200%N -> looks_like_html r = false ->
  laspy_read (content r) = inl e ->
  exn_class_of e <> HTTPError ->
  url_path laspy_read requests_get i fmt =
  ([st_spinner "Downloading .laz from URL..."; laspy_read_call (content r);
    st_error ("Failed to fetch/parse URL: " ++ exn_msg e);
    st_info generic_url_hint], inr tt).
Proof.
  intros laspy_read requests_get i fmt r e Hu Hg Hs Hh Hd Hc.
  rewrite (url_path_fetched _ _ _ _ _ Hu Hg), (url_try_decoder_error _ _ _ _ Hs Hh Hd).
  unfold try_except, url_except. destruct (exn_class_of e); try reflexivity.
  congruence.
Qed.



(** C3, as the script has it. A field that the decoder hands over as a
    bare number becomes an array of length 1, the same array as for a
    field of one entry; and the CSV of the single point x=12.5, y=7.25,
    z=0.0 has the data row 12.5,7.25,0.0, each number in its shortest
    form. *)
Theorem single_point_arrays_and_row :
  forall v : float64,
    atleast_1d (Scalar v) = [v] /\
    atleast_1d (Vector [v]) = [v] /\
    List.length (atleast_1d (Scalar v)) = 1%nat /\
    parse "12.5" = Some f_12_5 /\ parse "7.25" = Some f_7_25 /\ parse "0.0" = Some f_0 /\
    to_csv (DataFrame (atleast_1d (Scalar f_12_5)) (atleast_1d (Scalar f_7_25))
                      (atleast_1d (Scalar f_0))) =
      "X,Y,Z" ++ LF ++ "12.5,7.25,0.0" ++ LF.
Proof.
  intros v. repeat split; vm_compute; reflexivity.
Qed.

(** C3 as stated fails: no line of the CSV of the single point x=12.5,
    y=7.25, z=0.0 is 12.500,7.250,0.000. *)
Lemma single_point_row_not_three_decimals :
  ~ In "12.500,7.250,0.000"
       (split "010"%char (to_csv (DataFrame (atleast_1d (Scalar f_12_5))
                                            (atleast_1d (Scalar f_7_25))
                                            (atleast_1d (Scalar f_0))))).
Proof.
  vm_compute. intros [H|[H|[H|[]]]]; discriminate H.
Qed.

(** C4. When the three arrays of a decoded file do not all have the same
    length, both branches raise the error of the length check: nothing is
    offered for download and the error is shown. *)
Theorem mismatched_lengths_are_rejected :
  forall laspy_read pip data las fname clicked fmt r,
    laspy_read data = inr las ->
    ~ (List.length (atleast_1d (las_x las)) = List.length (atleast_1d (las_y las)) /\
       List.length (atleast_1d (las_y las)) = List.length (atleast_1d (las_z las))) ->
    (outcome (upload_try laspy_read (Uploaded fname data) fmt) =
       inl (Exn ValueError "Coordinate arrays have mismatched lengths") /\
     downloads (trace (upload_path laspy_read pip (Some (Uploaded fname data)) fmt clicked)) = [] /\
     errors_shown (trace (upload_path laspy_read pip (Some (Uploaded fname data)) fmt clicked)) =
       ["Error converting file: Coordinate arrays have mismatched lengths"]) /\
    (status_code r = 200%N -> looks_like_html r = false -> content r = data ->
     outcome (url_try laspy_read r fmt) =
       inl (Exn ValueError "Coordinate arrays have mismatched lengths") /\
     downloads (trace (try_except (url_try laspy_read r fmt) (url_except (Some r)))) = [] /\
     errors_shown (trace (try_except (url_try laspy_read r fmt) (url_except (Some r)))) =
       ["Failed to fetch/parse URL: Coordinate arrays have mismatched lengths"]).
Proof.
  intros laspy_read pip data las fname clicked fmt r Hd Hm.
  apply mismatched_true in Hm. split.
  - unfold upload_path.
    rewrite (upload_try_mismatch laspy_read (Uploaded fname data) fmt las Hd Hm).
    repeat split; reflexivity.
  - intros Hs Hh Hc. subst data.
    rewrite (url_try_mismatch laspy_read r fmt las Hs Hh Hd Hm).
    repeat split; reflexivity.
Qed.

Lemma mismatched_lengths_are_rejected_witness :
  outcome (upload_try (fun _ => inr ragged) (Uploaded "tile.laz" []) CSV) =
    inl (Exn ValueError "Coordinate arrays have mismatched lengths") /\
  downloads (trace (upload_path (fun _ => inr ragged) None (Some (Uploaded "tile.laz" [])) CSV false)) = [] /\
  outcome (url_try (fun _ => inr ragged) (Response 200 "OK" "" [] None) CSV) =
    inl (Exn ValueError "Coordinate arrays have mismatched lengths").
Proof.
  assert (Hm : ~ (List.length (atleast_1d (las_x ragged)) = List.length (atleast_1d (las_y ragged)) /\
                  List.length (atleast_1d (las_y ragged)) = List.length (atleast_1d (las_z ragged)))).
  { simpl. intros [H _]. discriminate H. }
  destruct (mismatched_lengths_are_rejected (fun _ => inr ragged) None [] ragged
              "tile.laz" false CSV (Response 200 "OK" "" [] None) eq_refl Hm)
    as [[H1 [H2 _]] H3].
  destruct (H3 eq_refl eq_refl eq_refl) as [H4 _].
  split; [exact H1|]. split; [exact H2|exact H4].
Defined.

(** C5, at a response with status 401. The status and the reason are
    reported and the decoder is not called, but the report is the one of
    every failed fetch: the exception raised for the status is a
    [RuntimeError], the clause for [requests.HTTPError] that holds the
    message about credentials is passed over. *)
Theorem unauthorized_is_reported_generically :
  forall laspy_read fmt,
    url_path laspy_read (fun _ => inr unauthorized) tile_url fmt =
      ([st_spinner "Downloading .laz from URL...";
        st_error "HTTP 401: Unauthorized";
        st_write "Access denied";
        st_error "Failed to fetch/parse URL: HTTP 401";
        st_info generic_url_hint], inr tt) /\
    ~ In "401 Unauthorized: the URL requires credentials or a presigned URL."
         (errors_shown (trace (url_path laspy_read (fun _ => inr unauthorized) tile_url fmt))) /\
    decoded (trace (url_path laspy_read (fun _ => inr unauthorized) tile_url fmt)) = [].
Proof.
  intros laspy_read fmt.
  assert (H : url_path laspy_read (fun _ => inr unauthorized) tile_url fmt =
      ([st_spinner "Downloading .laz from URL...";
        st_error "HTTP 401: Unauthorized";
        st_write "Access denied";
        st_error "Failed to fetch/parse URL: HTTP 401";
        st_info generic_url_hint], inr tt)).
  { rewrite (non_200_status_reported laspy_read (fun _ => inr unauthorized) tile_url fmt
               unauthorized eq_refl eq_refl) by discriminate.
    reflexivity. }
  rewrite H. split; [reflexivity|]. split; [|reflexivity].
  simpl. intros [E|[E|[]]]; discriminate E.
Qed.

(** C6. A response whose body begins, whatever the case of the letters,
    with [<!do], [<html] or [<?xml], or whose declared content type
    contains html, never reaches the decoder and yields no download; with
    status 200 it is refused with the error for HTML content. *)
Theorem html_response_is_rejected :
  forall laspy_read requests_get i fmt r,
    nonempty (laz_url i) = true ->
    requests_get (make_request i) = inr r ->
    html_like r ->
    decoded (trace (url_path laspy_read requests_get i fmt)) = [] /\
    downloads (trace (url_path laspy_read requests_get i fmt)) = [] /\
    (status_code r = 200%N ->
     url_try laspy_read r fmt =
       ([st_error "URL returned HTML (likely an error/redirect page) instead of a .laz file.";
         st_write_decoded (firstn 500 (content r))],
        inl (Exn RuntimeError "URL returned HTML")) /\
     errors_shown (trace (url_path laspy_read requests_get i fmt)) =
       ["URL returned HTML (likely an error/redirect page) instead of a .laz file.";
        "Failed to fetch/parse URL: URL returned HTML"]).
Proof.
  intros laspy_read requests_get i fmt r Hu Hg Hh.
  apply html_like_looks_like_html in Hh.
  destruct (N.eq_dec (status_code r) 200) as [Hs|Hs].
  - rewrite (url_path_fetched _ _ _ _ _ Hu Hg), (url_try_html laspy_read r fmt Hs Hh).
    repeat split; reflexivity.
  - rewrite (non_200_status_reported _ _ _ fmt _ Hu Hg Hs).
    repeat split; try reflexivity; contradiction.
Qed.

Lemma html_response_is_rejected_witness :
  html_like login_page /\
  outcome (url_try (fun _ => inr no_points) login_page CSV) =
    inl (Exn RuntimeError "URL returned HTML") /\
  decoded (trace (url_path (fun _ => inr no_points) (fun _ => inr login_page) tile_url CSV)) = [].
Proof.
  assert (Hh : html_like login_page) by (right; left; reflexivity).
  destruct (html_response_is_rejected (fun _ => inr no_points) (fun _ => inr login_page)
              tile_url CSV login_page eq_refl eq_refl Hh) as [H1 [_ H3]].
  destruct (H3 eq_refl) as [H4 _].
  split; [exact Hh|]. split; [rewrite H4; reflexivity|exact H1].
Defined.

(** C7, at a decoder that fails for want of a backend. The upload branch
    recognises the message and advises to install lazrs; the URL branch
    shows the same failure as any other one, without the advice. *)
Theorem url_backend_failure_is_not_classified :
  forall pip fmt,
    is_backend_message (exn_msg no_backend) = true /\
    upload_path (fun _ => inl no_backend) pip
        (Some (Uploaded "tile.laz" (content laz_response))) fmt false =
      ([st_spinner "Reading LAZ file..."; laspy_read_call (content laz_response);
        st_error "LAZ backend not available — Streamlit can't decompress .laz data.";
        st_write install_advice], inr tt) /\
    url_path (fun _ => inl no_backend) (fun _ => inr laz_response) tile_url fmt =
      ([st_spinner "Downloading .laz from URL..."; laspy_read_call (content laz_response);
        st_error "Failed to fetch/parse URL: No LazBackend selected, cannot decompress data";
        st_info generic_url_hint], inr tt).
Proof.
  intros pip fmt. split; [reflexivity|]. split.
  - apply (upload_backend_failure_advises_install (fun _ => inl no_backend) pip
             (Uploaded "tile.laz" (content laz_response)) fmt no_backend); reflexivity.
  - rewrite (url_decoder_failure_is_generic (fun _ => inl no_backend) (fun _ => inr laz_response)
               tile_url fmt laz_response no_backend); try reflexivity.
    discriminate.
Qed.

(** C8, at a file name in which [.laz] occurs before the extension too.
    Every occurrence is replaced, not the extension alone: the name
    offered for [survey.laz.backup.laz] is [survey.csv.backup.csv], or
    [survey.xyz.backup.xyz]. *)
Theorem output_name_replaces_every_occurrence :
  replace "survey.laz.backup.laz" ".laz" ".csv" = "survey.csv.backup.csv" /\
  replace "survey.laz.backup.laz" ".laz" ".xyz" = "survey.xyz.backup.xyz" /\
  map table_name
    (downloads (trace (upload_path (fun _ => inr one_point) None
                         (Some (Uploaded "survey.laz.backup.laz" (bytes_of "LASF"))) CSV false))) =
    ["survey.csv.backup.csv"] /\
  map table_name
    (downloads (trace (url_path (fun _ => inr one_point) (fun _ => inr laz_response)
                         tile_url CSV))) =
    ["downloaded_file.csv"].
Proof.
  repeat split; vm_compute; reflexivity.
Qed.

(** C10. For the same bytes and the same format, a fetch that is
    accepted (status 200, not HTML) offers what the upload offers: the
    same bytes under the same label, under the fixed name of the URL
    branch. *)
Theorem both_paths_export_same_content :
  forall laspy_read requests_get pip i fmt r fname clicked,
    nonempty (laz_url i) = true ->
    requests_get (make_request i) = inr r ->
    status_code r = 200%N ->
    looks_like_html r = false ->
    map table_content (downloads (trace (url_path laspy_read requests_get i fmt))) =
    map table_content
      (downloads (trace (upload_path laspy_read pip (Some (Uploaded fname (content r))) fmt clicked))) /\
    Forall (fun t => table_name t = url_name fmt)
      (downloads (trace (url_path laspy_read requests_get i fmt))) /\
    Forall (fun t => table_name t =
                     replace fname ".laz" (match fmt with CSV => ".csv" | XYZ => ".xyz" end))
      (downloads (trace (upload_path laspy_read pip (Some (Uploaded fname (content r))) fmt clicked))).
Proof.
  intros laspy_read requests_get pip i fmt r fname clicked Hu Hg Hs Hh.
  rewrite (url_path_fetched _ _ _ _ _ Hu Hg). unfold upload_path.
  destruct (laspy_read (content r)) as [e|las] eqn:Hd.
  - rewrite (url_try_decoder_error _ _ _ _ Hs Hh Hd).
    rewrite (upload_try_decoder_error laspy_read (Uploaded fname (content r)) fmt e Hd).
    unfold try_except, upload_except, url_except. rewrite Hs.
    destruct (exn_class_of e), (is_backend_message (exn_msg e)), clicked, pip;
      repeat split; try reflexivity; constructor.
  - destruct (mismatched (atleast_1d (las_x las)) (atleast_1d (las_y las))
                (atleast_1d (las_z las))) eqn:Hm.
    + rewrite (url_try_mismatch _ _ _ _ Hs Hh Hd Hm).
      rewrite (upload_try_mismatch laspy_read (Uploaded fname (content r)) fmt las Hd Hm).
      repeat split; try reflexivity; constructor.
    + rewrite (url_try_ok _ _ _ _ Hs Hh Hd Hm).
      rewrite (upload_try_ok laspy_read (Uploaded fname (content r)) fmt las Hd Hm).
      destruct fmt; repeat split; try reflexivity; repeat constructor.
Qed.

Lemma both_paths_export_same_content_witness :
  map table_content
    (downloads (trace (url_path (fun _ => inr one_point) (fun _ => inr laz_response) tile_url CSV))) =
  [(encode_utf8 ("X,Y,Z" ++ LF ++ "12.5,7.25,0.0" ++ LF), "text/csv")] /\
  map table_content
    (downloads (trace (upload_path (fun _ => inr one_point) None
                         (Some (Uploaded "tile.laz" (content laz_response))) CSV false))) =
  [(encode_utf8 ("X,Y,Z" ++ LF ++ "12.5,7.25,0.0" ++ LF), "text/csv")].
Proof.
  destruct (both_paths_export_same_content (fun _ => inr one_point) (fun _ => inr laz_response)
              None tile_url CSV laz_response "tile.laz" false eq_refl eq_refl eq_refl eq_refl)
    as [H _].
  split; [|rewrite <- H]; vm_compute; reflexivity.
Defined.

End Claims.

(** ** The claim about the XYZ text *)

Module XyzClaims.

Import Text Numeral Float64 Lib App Spec Cases NumeralFacts SplitFacts FixedFacts.

Lemma rows_length : forall x y z : list float64,
  List.length x = List.length y -> List.length y = List.length z ->
  List.length (rows x y z) = List.length x.
Proof.
  induction x as [|a x IH]; intros [|b y] [|c z] H1 H2; simpl in *; try congruence.
  f_equal. apply IH; congruence.
Qed.

Lemma xyz_line_fields : forall a b c,
  split " "%char (xyz_line (a, b, c)) = [format_3f a; format_3f b; format_3f c].
Proof.
  intros a b c.
  change (xyz_line (a, b, c))
    with (format_3f a ++ String " "%char (format_3f b ++ String " "%char (format_3f c))).
  rewrite !split_app, split_avoids by (apply format_3f_avoids; reflexivity).
  reflexivity.
Qed.

Lemma xyz_line_avoids_newline : forall r, avoids "010"%char (xyz_line r) = true.
Proof.
  intros [[a b] c]. unfold xyz_line.
  rewrite !avoids_app, !format_3f_avoids by reflexivity. reflexivity.
Qed.

(** C1 as stated fails when a coordinate is not a finite number: NaN is
    written [nan], without digits after a decimal point. *)
Lemma xyz_nan_has_no_decimals :
  ~ Forall (fun s => three_decimals s = true)
      (List.concat (map (split " "%char)
                 (split "010"%char (xyz_str (column_stack [S754_nan] [f_0] [f_0]))))).
Proof.
  vm_compute. intros H. inversion H as [|s l H1 H2]. discriminate H1.
Qed.

End XyzClaims.

(** ** The claim about the CSV text *)

Module CsvClaims.

Import Text Numeral Float64 Lib App Spec Cases CsvFacts SplitFacts.

(** C9. The CSV of a point cloud is the header line [X,Y,Z] followed by
    one line per point, in the order of the points, each coordinate in
    its shortest decimal form; reading the text back gives, row by row,
    the very binary64 numbers that were written, hence the three columns
    unchanged. *)
Theorem csv_round_trip :
  forall x y z : list float64,
    List.length x = List.length y ->
    List.length y = List.length z ->
    forallb valid (x ++ y ++ z) = true ->
    split "010"%char (to_csv (DataFrame x y z)) =
      ("X,Y,Z" :: map row_body (rows x y z) ++ [""])%list /\
    read_csv (to_csv (DataFrame x y z)) = Some (rows x y z) /\
    option_map columns (read_csv (to_csv (DataFrame x y z))) = Some (x, y, z).
Proof.
  intros x y z Hxy Hyz Hvalid.
  assert (Hlines : split "010"%char (to_csv (DataFrame x y z)) =
                   ("X,Y,Z" :: map row_body (rows x y z) ++ [""])%list).
  { unfold to_csv, DataFrame, LF.
    change ("X,Y,Z" ++ String "010"%char "" ++ String.concat "" (map csv_row (rows x y z)))
      with ("X,Y,Z" ++ String "010"%char (String.concat "" (map csv_row (rows x y z)))).
    rewrite split_app by reflexivity. rewrite csv_lines. reflexivity. }
  assert (Hread : read_csv (to_csv (DataFrame x y z)) = Some (rows x y z)).
  { unfold read_csv. rewrite Hlines.
    change (String.eqb "X,Y,Z" "X,Y,Z") with true. cbv iota.
    apply read_rows_lines. apply Forall_forall. intros [[a b] c] Hin.
    apply row_body_reads. apply rows_in in Hin. destruct Hin as [Ha [Hb Hc]].
    rewrite forallb_forall in Hvalid.
    rewrite !Hvalid by (rewrite !in_app_iff; auto). reflexivity. }
  split; [exact Hlines|]. split; [exact Hread|].
  rewrite Hread. cbn [option_map]. f_equal. now apply rows_columns.
Qed.

Lemma csv_round_trip_witness :
  to_csv (DataFrame [f_12_5; f_1] [f_7_25; f_1] [f_0; S754_nan]) =
    "X,Y,Z" ++ LF ++ "12.5,7.25,0.0" ++ LF ++ "1.0,1.0," ++ LF /\
  read_csv (to_csv (DataFrame [f_12_5; f_1] [f_7_25; f_1] [f_0; S754_nan])) =
    Some [(f_12_5, f_7_25, f_0); (f_1, f_1, S754_nan)].
Proof.
  split; [vm_compute; reflexivity|].
  destruct (csv_round_trip [f_12_5; f_1] [f_7_25; f_1] [f_0; S754_nan]
              eq_refl eq_refl eq_refl) as [_ [H _]].
  exact H.
Defined.

End CsvClaims.

(** * Further properties of the script *)

(** ** The session, the request and the containment of failures *)

Module BranchFacts.

Import Text Numeral Float64 Lib App Spec Cases Session Observe TextFacts AppFacts.

Lemma get_set_same : forall k v s, get k (set k v s) = Some v.
Proof.
  intros k v s. induction s as [|[k' v'] s IH]; simpl.
  - now rewrite String.eqb_refl.
  - destruct (String.eqb k' k) eqn:E; simpl.
    + now rewrite String.eqb_refl.
    + now rewrite E.
Qed.

Lemma get_set_other : forall k k' v s, k' <> k -> get k' (set k v s) = get k' s.
Proof.
  intros k k' v s Hk. induction s as [|[k0 v0] s IH]; simpl.
  - destruct (String.eqb_spec k k'); [congruence|reflexivity].
  - destruct (String.eqb_spec k0 k) as [->|E]; simpl.
    + destruct (String.eqb_spec k k'); [congruence|reflexivity].
    + destruct (String.eqb k0 k'); [reflexivity|exact IH].
Qed.

Lemma counter_block_spec : forall pressed s,
  exists s',
    counter_block pressed s = inr (s', counter_of s + (if pressed then 1 else 0)) /\
    get "counter" s' = Some (counter_of s + (if pressed then 1 else 0)) /\
    (forall k, k <> "counter" -> get k s' = get k s).
Proof.
  intros pressed s. unfold counter_block, counter_of.
  destruct (get "counter" s) as [v|] eqn:E.
  - destruct pressed.
    + rewrite E. exists (set "counter" (v + 1) s). rewrite get_set_same.
      repeat split. intros k Hk. now apply get_set_other.
    + rewrite E. exists s. rewrite Z.add_0_r. repeat split; auto.
  - destruct pressed.
    + rewrite get_set_same. exists (set "counter" (0 + 1) (set "counter" 0 s)).
      rewrite get_set_same. repeat split.
      intros k Hk. now rewrite !get_set_other.
    + rewrite get_set_same. exists (set "counter" 0 s). repeat split.
      * apply get_set_same.
      * intros k Hk. now apply get_set_other.
Qed.

Lemma reruns_spec : forall presses s,
  exists s',
    reruns presses s = inr s' /\
    counter_of s' = counter_of s + presses_in presses /\
    (presses <> [] -> get "counter" s' = Some (counter_of s + presses_in presses)) /\
    (forall k, k <> "counter" -> get k s' = get k s).
Proof.
  induction presses as [|p rest IH]; intros s.
  - exists s. unfold presses_in. cbn. rewrite Z.add_0_r. repeat split; congruence.
  - destruct (counter_block_spec p s) as [s1 [H1 [H2 H3]]].
    destruct (IH s1) as [s2 [H4 [H5 [H6 H7]]]].
    exists s2. cbn [reruns]. rewrite H1.
    assert (Hc : counter_of s1 = counter_of s + (if p then 1 else 0))
      by (unfold counter_of at 1; now rewrite H2).
    assert (Hn : presses_in (p :: rest) = (if p then 1 else 0) + presses_in rest).
    { unfold presses_in. cbn [filter]. destruct p; cbn [List.length]; lia. }
    assert (Hv : counter_of s2 = counter_of s + presses_in (p :: rest)) by lia.
    repeat split.
    + exact H4.
    + exact Hv.
    + intros _. destruct rest as [|q rest'].
      * cbn [reruns] in H4. injection H4 as <-. rewrite H2. f_equal. unfold presses_in in *.
        cbn in *. destruct p; cbn; lia.
      * rewrite H6 by discriminate. f_equal. lia.
    + intros k Hk. rewrite H7, H3 by assumption. reflexivity.
Qed.

(** X1. Over any number of reruns the counter never fails and counts the
    presses of the button: it ends at its starting value (0 when it was
    not set) plus the number of reruns in which the button was pressed,
    and after at least one rerun it is set. *)
Theorem counter_counts_presses :
  forall presses s,
    exists s',
      reruns presses s = inr s' /\
      counter_of s' = counter_of s + presses_in presses /\
      (presses <> [] -> get "counter" s' = Some (counter_of s + presses_in presses)).
Proof.
  intros presses s. destruct (reruns_spec presses s) as [s' [H1 [H2 [H3 _]]]].
  exists s'. auto.
Qed.

(** X2. The counter touches no other key of the session: whatever else
    is stored stays as it was through any number of reruns. *)
Theorem counter_leaves_other_keys :
  forall presses s k,
    k <> "counter" ->
    exists s', reruns presses s = inr s' /\ get k s' = get k s.
Proof.
  intros presses s k Hk. destruct (reruns_spec presses s) as [s' [H1 [_ [_ H4]]]].
  exists s'. split; [exact H1|now apply H4].
Qed.

Lemma counter_leaves_other_keys_witness :
  "visits" <> "counter" /\
  exists s', reruns [true; false; true] [("visits", 7)] = inr s' /\
             get "visits" s' = get "visits" [("visits", 7)].
Proof.
  assert (H : "visits" <> "counter") by discriminate.
  split; [exact H|].
  exact (counter_leaves_other_keys [true; false; true] [("visits", 7)] "visits" H).
Defined.

(** X3. What [requests.get] is given as credentials is one of three
    things: the header [Authorization: Bearer <token>] and nothing else,
    for the bearer choice with a token filled in; the pair of the user
    and the password as [auth] and no header, for the basic choice with
    one of the two filled in; neither in every other case.  The script
    never passes both and never passes any other header. *)
Theorem credentials_are_exclusive :
  forall i : url_inputs,
    (auth_type i = BearerToken /\ token i <> "" ->
       req_headers (make_request i) = Some [("Authorization", "Bearer " ++ token i)] /\
       req_auth (make_request i) = None) /\
    (auth_type i = BasicAuth /\ (user i <> "" \/ pwd i <> "") ->
       req_headers (make_request i) = None /\
       req_auth (make_request i) = Some (user i, pwd i)) /\
    (~ (auth_type i = BearerToken /\ token i <> "") ->
       ~ (auth_type i = BasicAuth /\ (user i <> "" \/ pwd i <> "")) ->
       req_headers (make_request i) = None /\ req_auth (make_request i) = None) /\
    ~ (req_headers (make_request i) <> None /\ req_auth (make_request i) <> None) /\
    req_url (make_request i) = laz_url i.
Proof.
  intros [url a tk us pw]. unfold make_request, nonempty.
  cbn [auth_type token user pwd laz_url].
  destruct a; cbn [req_headers req_auth req_url];
    destruct (String.eqb_spec tk ""), (String.eqb_spec us ""), (String.eqb_spec pw "");
    cbn [negb orb]; intuition (try discriminate; try congruence).
Qed.

Lemma credentials_are_exclusive_witness :
  req_headers (make_request (UrlInputs "https://host/tile.laz" BearerToken "abc" "u" "p")) =
    Some [("Authorization", "Bearer abc")] /\
  req_auth (make_request (UrlInputs "https://host/tile.laz" BearerToken "abc" "u" "p")) = None.
Proof.
  destruct (credentials_are_exclusive (UrlInputs "https://host/tile.laz" BearerToken "abc" "u" "p"))
    as [H _].
  apply H. split; [reflexivity|discriminate].
Defined.







End BranchFacts.

(** ** What the branches offer *)

Module OfferFacts.

Import Text Numeral Float64 Lib App Spec Cases Session Observe TextFacts AppFacts BranchFacts.

Lemma downloads_app : forall t t', downloads (t ++ t') = (downloads t ++ downloads t')%list.
Proof. intros. unfold downloads. apply flat_map_app. Qed.

Lemma decoded_app : forall t t', decoded (t ++ t') = (decoded t ++ decoded t')%list.
Proof. intros. unfold decoded. apply flat_map_app. Qed.

Lemma installs_app : forall t t', installs (t ++ t') = (installs t ++ installs t')%list.
Proof. intros. unfold installs. apply flat_map_app. Qed.

Lemma upload_except_quiet : forall pip clicked e,
  downloads (trace (upload_except pip clicked e)) = [] /\
  decoded (trace (upload_except pip clicked e)) = [].
Proof.
  intros pip clicked e. unfold upload_except.
  destruct (is_backend_message (exn_msg e)), clicked, pip; split; reflexivity.
Qed.

Lemma url_except_quiet : forall r e,
  downloads (trace (url_except r e)) = [] /\
  decoded (trace (url_except r e)) = [] /\
  installs (trace (url_except r e)) = [].
Proof.
  intros r e. unfold url_except.
  destruct (exn_class_of e); try (repeat split; reflexivity).
  destruct r as [r|]; [|repeat split; reflexivity].
  destruct (status_code r =? 401)%N; repeat split; reflexivity.
Qed.

Lemma try_except_trace : forall (m : run unit) handler,
  trace (try_except m handler) =
  match outcome m with
  | inl e => (trace m ++ trace (handler e))%list
  | inr _ => trace m
  end.
Proof.
  intros [t [e|[]]] handler; unfold try_except; cbn [outcome snd trace fst]; [|reflexivity].
  destruct (handler e) as [t' r]. reflexivity.
Qed.

(** What the body of the upload branch shows and returns, by the result
    of the decoder. *)
Lemma upload_try_cases : forall laspy_read f fmt,
  downloads (trace (upload_try laspy_read f fmt)) =
    offered fmt (replace (name f) ".laz" (extension fmt)) (laspy_read (file_bytes f)) /\
  decoded (trace (upload_try laspy_read f fmt)) = [file_bytes f] /\
  installs (trace (upload_try laspy_read f fmt)) = [].
Proof.
  intros laspy_read f fmt. unfold offered.
  destruct (laspy_read (file_bytes f)) as [e|las] eqn:Hd.
  - rewrite (upload_try_decoder_error _ _ _ _ Hd). repeat split; reflexivity.
  - destruct (mismatched (atleast_1d (las_x las)) (atleast_1d (las_y las))
                (atleast_1d (las_z las))) eqn:Hm.
    + rewrite (upload_try_mismatch _ _ _ _ Hd Hm). repeat split; reflexivity.
    + rewrite (upload_try_ok _ _ _ _ Hd Hm). destruct fmt; repeat split; reflexivity.
Qed.

(** X6. The upload branch calls the decoder exactly once, on the bytes of
    the uploaded file, and offers all or nothing: the one table of the
    chosen format, under the name derived from the name of the file, when
    the decoder succeeds with arrays of equal lengths; no download at all
    when it fails or the lengths differ. *)
Theorem upload_offers_all_or_nothing :
  forall laspy_read pip f fmt clicked,
    decoded (trace (upload_path laspy_read pip (Some f) fmt clicked)) = [file_bytes f] /\
    downloads (trace (upload_path laspy_read pip (Some f) fmt clicked)) =
      offered fmt (replace (name f) ".laz" (extension fmt)) (laspy_read (file_bytes f)).
Proof.
  intros laspy_read pip f fmt clicked. unfold upload_path. rewrite try_except_trace.
  destruct (upload_try_cases laspy_read f fmt) as [H1 [H2 _]].
  destruct (outcome (upload_try laspy_read f fmt)) as [e|[]].
  - destruct (upload_except_quiet pip clicked e) as [H3 H4].
    rewrite decoded_app, downloads_app, H1, H2, H3, H4, !app_nil_r. split; reflexivity.
  - split; assumption.
Qed.

Lemma url_try_cases : forall laspy_read r fmt,
  downloads (trace (url_try laspy_read r fmt)) =
    (if accepted r then offered fmt (url_name fmt) (laspy_read (content r)) else []) /\
  decoded (trace (url_try laspy_read r fmt)) = (if accepted r then [content r] else []) /\
  installs (trace (url_try laspy_read r fmt)) = [].
Proof.
  intros laspy_read r fmt. unfold accepted, offered.
  destruct (N.eqb_spec (status_code r) 200) as [Hs|Hs].
  - destruct (looks_like_html r) eqn:Hh; cbn [negb andb].
    + rewrite (url_try_html _ _ _ Hs Hh). repeat split; reflexivity.
    + destruct (laspy_read (content r)) as [e|las] eqn:Hd.
      * rewrite (url_try_decoder_error _ _ _ _ Hs Hh Hd). repeat split; reflexivity.
      * destruct (mismatched (atleast_1d (las_x las)) (atleast_1d (las_y las))
                    (atleast_1d (las_z las))) eqn:Hm.
        -- rewrite (url_try_mismatch _ _ _ _ Hs Hh Hd Hm). repeat split; reflexivity.
        -- rewrite (url_try_ok _ _ _ _ Hs Hh Hd Hm). destruct fmt; repeat split; reflexivity.
  - rewrite (url_try_status _ _ _ Hs). repeat split; reflexivity.
Qed.

(** X7. After a fetch, the URL branch hands the body to the decoder
    exactly when the status is 200 and the response does not look like
    HTML, and then once and whole; it offers the one table of the chosen
    format, under its fixed name, when moreover the decoder succeeds with
    arrays of equal lengths, and nothing in every other case. *)
Theorem url_offers_all_or_nothing :
  forall laspy_read requests_get i fmt r,
    nonempty (laz_url i) = true ->
    requests_get (make_request i) = inr r ->
    decoded (trace (url_path laspy_read requests_get i fmt)) =
      (if accepted r then [content r] else []) /\
    downloads (trace (url_path laspy_read requests_get i fmt)) =
      (if accepted r then offered fmt (url_name fmt) (laspy_read (content r)) else []).
Proof.
  intros laspy_read requests_get i fmt r Hu Hg.
  rewrite (url_path_fetched _ _ _ _ _ Hu Hg).
  assert (Ht : trace (bind (emit (st_spinner "Downloading .laz from URL..."))
                        (fun _ => try_except (url_try laspy_read r fmt) (url_except (Some r)))) =
               st_spinner "Downloading .laz from URL..." ::
               trace (try_except (url_try laspy_read r fmt) (url_except (Some r)))).
  { unfold bind, emit.
    destruct (try_except (url_try laspy_read r fmt) (url_except (Some r))). reflexivity. }
  rewrite Ht, try_except_trace.
  destruct (url_try_cases laspy_read r fmt) as [H1 [H2 _]].
  change (decoded (?a :: ?t)) with (decoded t).
  change (downloads (?a :: ?t)) with (downloads t).
  destruct (outcome (url_try laspy_read r fmt)) as [e|[]].
  - destruct (url_except_quiet (Some r) e) as [H3 [H4 _]].
    rewrite decoded_app, downloads_app, H1, H2, H3, H4, !app_nil_r. split; reflexivity.
  - split; assumption.
Qed.

Lemma url_offers_all_or_nothing_witness :
  decoded (trace (url_path (fun _ => inr one_point) (fun _ => inr laz_response) tile_url XYZ)) =
    [content laz_response] /\
  decoded (trace (url_path (fun _ => inr one_point) (fun _ => inr login_page) tile_url XYZ)) = [].
Proof.
  split.
  - exact (proj1 (url_offers_all_or_nothing (fun _ => inr one_point) (fun _ => inr laz_response)
                    tile_url XYZ laz_response eq_refl eq_refl)).
  - exact (proj1 (url_offers_all_or_nothing (fun _ => inr one_point) (fun _ => inr login_page)
                    tile_url XYZ login_page eq_refl eq_refl)).
Defined.

(** X8. The installer runs only on request: [pip install lazrs] is
    started in the upload branch when the conversion failed with a
    message that names the backend and the button to install was
    pressed, and in no other case; the URL branch never starts it. *)
Theorem installer_runs_on_request_only :
  forall laspy_read requests_get pip f fmt clicked i,
    installs (trace (upload_path laspy_read pip (Some f) fmt clicked)) =
      match outcome (upload_try laspy_read f fmt) with
      | inl e => if is_backend_message (exn_msg e) && clicked then ["lazrs"] else []
      | inr _ => []
      end /\
    installs (trace (upload_path laspy_read pip None fmt clicked)) = [] /\
    installs (trace (url_path laspy_read requests_get i fmt)) = [].
Proof.
  intros laspy_read requests_get pip f fmt clicked i. split; [|split].
  - unfold upload_path. rewrite try_except_trace.
    destruct (upload_try_cases laspy_read f fmt) as [_ [_ H]].
    destruct (outcome (upload_try laspy_read f fmt)) as [e|[]]; [|exact H].
    rewrite installs_app, H. unfold upload_except.
    destruct (is_backend_message (exn_msg e)), clicked, pip; reflexivity.
  - reflexivity.
  - unfold url_path. destruct (nonempty (laz_url i)); [|reflexivity].
    destruct (requests_get (make_request i)) as [e|r].
    + destruct (url_except_quiet None e) as [_ [_ H]].
      unfold bind, emit. destruct (url_except None e) as [t o]. exact H.
    + pose proof (try_except_trace (url_try laspy_read r fmt) (url_except (Some r))) as Ht.
      destruct (url_try_cases laspy_read r fmt) as [_ [_ H]].
      unfold bind, emit.
      destruct (try_except (url_try laspy_read r fmt) (url_except (Some r))) as [t o].
      cbn [trace fst] in Ht |- *. cbn [app].
      change (installs (st_spinner "Downloading .laz from URL..." :: t)) with (installs t).
      rewrite Ht.
      destruct (outcome (url_try laspy_read r fmt)) as [e|[]]; [|exact H].
      destruct (url_except_quiet (Some r) e) as [_ [_ H']].
      rewrite installs_app, H, H'. reflexivity.
Qed.

End OfferFacts.

(** ** Messages, names and the test for HTML *)

Module MoreFacts.

Import Text Numeral Float64 Lib App Spec Cases Session Observe.
Import TextFacts NumeralFacts SplitFacts FixedFacts RoundFacts ShortestFacts ReprFacts CsvFacts.
Import AppFacts BranchFacts OfferFacts.

(** *** Texts *)

Lemma prefix_contains : forall p s, prefix p s = true -> contains p s = true.
Proof.
  intros p [|a s] H.
  - cbn [contains]. now rewrite H.
  - rewrite contains_cons. now rewrite H.
Qed.

Lemma contains_step : forall p a s, contains p s = true -> contains p (String a s) = true.
Proof.
  intros p a s H. rewrite contains_cons, H. now destruct (prefix p (String a s)).
Qed.

Lemma contains_tail : forall c p s, contains (String c p) s = true -> contains p s = true.
Proof.
  intros c p s. induction s as [|a s IH].
  - cbn. discriminate.
  - rewrite contains_cons. destruct (prefix (String c p) (String a s)) eqn:E.
    + intros _. cbn [prefix] in E. destruct (ascii_dec c a); [|discriminate].
      apply contains_step. now apply prefix_contains.
    + intros H. apply contains_step. now apply IH.
Qed.

Lemma contains_drop : forall a b s, contains (a ++ b) s = true -> contains b s = true.
Proof.
  induction a as [|c a IH]; intros b s H; [exact H|].
  apply IH. apply (contains_tail c). exact H.
Qed.

(** X9. The test for a missing backend amounts to two phrases: a
    message is taken for a backend failure exactly when it contains
    [LazBackend] or [cannot decompress]; the third phrase of the test,
    [No LazBackend], adds nothing. *)
Theorem backend_test_has_two_phrases :
  forall msg,
    is_backend_message msg = contains "LazBackend" msg || contains "cannot decompress" msg.
Proof.
  intros msg. unfold is_backend_message.
  destruct (contains "No LazBackend" msg) eqn:E.
  - rewrite (contains_drop "No " "LazBackend" msg E). reflexivity.
  - cbn [orb]. apply orb_comm.
Qed.

Lemma replace_from_absent : forall old new s,
  contains old s = false -> replace_from old new 0 s = s.
Proof.
  intros old new s. induction s as [|c s IH]; [reflexivity|].
  rewrite contains_cons. destruct (prefix old (String c s)) eqn:E; [discriminate|].
  intros H. cbn [replace_from]. rewrite E, (IH H). reflexivity.
Qed.

(** X10. A file whose name does not contain [.laz] in lower case keeps
    its name: the download is offered under the very name of the upload,
    for either format. *)
Theorem name_without_extension_is_kept :
  forall laspy_read pip f fmt clicked,
    contains ".laz" (name f) = false ->
    replace (name f) ".laz" (extension fmt) = name f /\
    Forall (fun t => table_name t = name f)
      (downloads (trace (upload_path laspy_read pip (Some f) fmt clicked))).
Proof.
  intros laspy_read pip f fmt clicked H.
  assert (Hr : replace (name f) ".laz" (extension fmt) = name f)
    by (unfold replace; now apply replace_from_absent).
  split; [exact Hr|].
  destruct (upload_offers_all_or_nothing laspy_read pip f fmt clicked) as [_ Hd].
  rewrite Hd, Hr. unfold offered.
  destruct (laspy_read (file_bytes f)) as [e|las]; [constructor|].
  destruct (mismatched _ _ _); repeat constructor.
Qed.

Lemma name_without_extension_is_kept_witness :
  contains ".laz" "SCAN.LAZ" = false /\
  replace "SCAN.LAZ" ".laz" ".csv" = "SCAN.LAZ" /\
  Forall (fun t => table_name t = "SCAN.LAZ")
    (downloads (trace (upload_path (fun _ => inr one_point) None
                         (Some (Uploaded "SCAN.LAZ" [])) CSV false))).
Proof.
  split; [reflexivity|].
  exact (name_without_extension_is_kept (fun _ => inr one_point) None
           (Uploaded "SCAN.LAZ" []) CSV false eq_refl).
Defined.

(** *** The test for HTML *)

Lemma lower_byte_lt : forall b, lower_byte b = x3c -> b = x3c.
Proof. intros b. destruct b; vm_compute; congruence. Qed.

Lemma startswith_lt : forall p data,
  hd_error data <> Some x3c ->
  startswith (x3c :: p) (lower_bytes (firstn 8 data)) = false.
Proof.
  intros p [|b data] H; [reflexivity|].
  cbn [firstn lower_bytes map startswith].
  destruct (Byte.eqb x3c (lower_byte b)) eqn:E; [|reflexivity].
  apply Byte.byte_dec_bl in E. symmetry in E. apply lower_byte_lt in E.
  subst b. exfalso. apply H. reflexivity.
Qed.

(** X11. A body that does not begin with [<], under a content type that
    does not contain html in any case, is never taken for HTML: with
    status 200 it is handed to the decoder.  The signature [LASF] of a
    LAS file is such a beginning. *)
Theorem binary_body_reaches_decoder :
  forall laspy_read r fmt,
    status_code r = 200%N ->
    hd_error (content r) <> Some x3c ->
    contains "html" (lower (match content_type_header r with Some v => v | None => "" end)) = false ->
    looks_like_html r = false /\
    decoded (trace (url_try laspy_read r fmt)) = [content r].
Proof.
  intros laspy_read r fmt Hs Hb Hct.
  assert (Hh : looks_like_html r = false).
  { unfold looks_like_html. rewrite Hct.
    change (bytes_of "<!do") with (x3c :: [x21; x64; x6f]).
    change (bytes_of "<html") with (x3c :: [x68; x74; x6d; x6c]).
    change (bytes_of "<?xml") with (x3c :: [x3f; x78; x6d; x6c]).
    rewrite !startswith_lt by exact Hb. reflexivity. }
  split; [exact Hh|].
  destruct (url_try_cases laspy_read r fmt) as [_ [H _]].
  rewrite H. unfold accepted. rewrite Hs, Hh. reflexivity.
Qed.

Lemma binary_body_reaches_decoder_witness :
  hd_error (content laz_response) <> Some x3c /\
  looks_like_html laz_response = false /\
  decoded (trace (url_try (fun _ => inr one_point) laz_response CSV)) = [content laz_response].
Proof.
  assert (H : hd_error (content laz_response) <> Some x3c) by (vm_compute; discriminate).
  split; [exact H|].
  exact (binary_body_reaches_decoder (fun _ => inr one_point) laz_response CSV
           eq_refl H eq_refl).
Defined.

End MoreFacts.

(** ** Precision and the way back *)

Module PrecisionFacts.

Import Text Numeral Float64 Lib App Spec Cases Session Observe.
Import TextFacts NumeralFacts SplitFacts FixedFacts RoundFacts NearFacts ShortestFacts ReprFacts CsvFacts.
Import AppFacts BranchFacts OfferFacts.

Lemma digits_value_from : forall l a b,
  digits_value (a + b) l =
  option_map (fun v => v + a * 10 ^ Z.of_nat (List.length l)) (digits_value b l).
Proof.
  induction l as [|c l IH]; intros a b.
  - cbn. f_equal. lia.
  - cbn [digits_value List.length]. destruct (digit_value c) as [d|]; [|reflexivity].
    replace (10 * (a + b) + d) with (10 * a + (10 * b + d)) by ring.
    rewrite IH. destruct (digits_value (10 * b + d) l); [|reflexivity].
    cbn [option_map]. f_equal.
    rewrite Nat2Z.inj_succ, Z.pow_succ_r by lia. ring.
Qed.

(** The text with three decimals of [q] thousandths denotes them. *)
Lemma fixed_digits_reads : forall q, 0 <= q ->
  parse_decimal (fixed_digits 3 q) = Some (q, -3).
Proof.
  intros q Hq. rewrite fixed_digits_three by exact Hq.
  set (ip := digits (q / 1000)). set (fp := pad_left 3 (digits (q mod 1000))).
  assert (Hm : 0 <= q mod 1000 < 1000) by (apply Z.mod_pos_bound; lia).
  assert (Hlen : List.length fp = 3%nat)
    by (apply pad_left_length, digits_length; change (10 ^ Z.of_nat 3) with 1000; exact Hm).
  replace (ip ++ "."%char :: fp)%list with (ip ++ dot_part (Some fp) ++ exp_part None)%list
    by (cbn [dot_part exp_part app]; rewrite app_nil_r; reflexivity).
  rewrite (parse_decimal_assembled ip (Some fp) None q 0).
  - cbn [opt_list]. rewrite Hlen. reflexivity.
  - apply digits_are_digits.
  - apply pad_left_are_digits, digits_are_digits.
  - cbn [opt_list]. intros E. apply app_eq_nil in E. destruct E as [E _].
    exact (digits_nonempty _ E).
  - cbn [opt_list]. rewrite digits_value_app.
    unfold ip. rewrite digits_value_digits by (apply Z.div_pos; lia).
    replace (q / 1000) with (q / 1000 + 0) at 1 by lia.
    rewrite digits_value_from.
    pose proof (digits_value_padded 3 (q mod 1000) ltac:(lia)) as Hv. fold fp in Hv.
    rewrite Hv. cbn [option_map]. rewrite Hlen.
    change (10 ^ Z.of_nat 3) with 1000. f_equal.
    pose proof (Z.div_mod q 1000). lia.
  - reflexivity.
Qed.

(** X12. A finite coordinate is written in the XYZ text as its sign and a
    decimal with three decimals that is within half a thousandth of its
    magnitude: reading the digits back gives [q / 1000] with
    [|q / 1000 - m * 2^e| <= 1 / 2000]. *)
Theorem xyz_coordinate_is_within_half_a_thousandth :
  forall s m e,
    exists q,
      0 <= q /\
      format_3f (S754_finite s m e) = string_of_list_ascii (sign_text s ++ fixed_digits 3 q) /\
      parse_decimal (fixed_digits 3 q) = Some (q, -3) /\
      Qle (Qabs (decimal_value q (-3) - magnitude m e)) (1 # 2000).
Proof.
  intros s m e. unfold format_3f, format_fixed.
  destruct (scaled m e (Z.of_nat 3)) as [a b] eqn:E3.
  destruct (scaled_positive _ _ _ _ _ E3) as [Ha Hb].
  exists (round_half_even a b).
  assert (Hq : 0 <= round_half_even a b) by (apply round_half_even_nonneg; lia).
  split; [exact Hq|]. split; [reflexivity|]. split; [now apply fixed_digits_reads|].
  pose proof (round_half_even_error a b Hb) as Herr.
  set (q := round_half_even a b) in *.
  unfold magnitude. rewrite scaled_zero.
  unfold scaled in E3. change (0 <=? Z.of_nat 3) with true in E3. cbv iota in E3.
  change (10 ^ Z.of_nat 3) with 1000 in E3.
  apply pair_equal_spec in E3. destruct E3 as [Ea Eb].
  set (n := if 0 <=? e then Z.pos m * 2 ^ e else Z.pos m) in *.
  set (d := if 0 <=? e then 1 else 2 ^ (- e)) in *.
  unfold decimal_value. change (0 <=? -3) with false. cbv iota.
  change (Z.to_pos (10 ^ (- -3))) with 1000%positive.
  apply Qabs_Qle_condition. unfold Qle, Qminus, Qplus, Qopp. cbn [Qnum Qden].
  rewrite Pos2Z.inj_mul, Z2Pos.id by lia.
  subst a b. split; lia.
Qed.

(** *** The CSV that is offered *)

Lemma to_csv_reads : forall x y z : list float64,
  forallb valid (x ++ y ++ z) = true ->
  read_csv (to_csv (DataFrame x y z)) = Some (rows x y z).
Proof.
  intros x y z Hvalid. unfold read_csv, to_csv, DataFrame, LF.
  change ("X,Y,Z" ++ String "010"%char "" ++ String.concat "" (map csv_row (rows x y z)))
    with ("X,Y,Z" ++ String "010"%char (String.concat "" (map csv_row (rows x y z)))).
  rewrite split_app by reflexivity. rewrite csv_lines.
  change (String.eqb "X,Y,Z" "X,Y,Z") with true. cbv iota.
  apply read_rows_lines. apply Forall_forall. intros [[a b] c] Hin.
  apply row_body_reads. apply rows_in in Hin. destruct Hin as [Ha [Hb Hc]].
  rewrite forallb_forall in Hvalid.
  rewrite !Hvalid by (rewrite !in_app_iff; auto). reflexivity.
Qed.

(** X13. From the decoder to the download no value is lost: when the
    decoder returns arrays of equal lengths, the bytes that either branch
    offers as CSV, decoded and read back, are the three arrays of the
    decoder: every number that is not a NaN with its sign, mantissa and
    exponent, and a NaN as a NaN (the CSV has an empty cell for it; the
    sign and the payload of a NaN are not written and are not told apart
    here). *)
Theorem offered_csv_reads_back :
  forall laspy_read pip data las fname clicked r,
    laspy_read data = inr las ->
    List.length (atleast_1d (las_x las)) = List.length (atleast_1d (las_y las)) ->
    List.length (atleast_1d (las_y las)) = List.length (atleast_1d (las_z las)) ->
    forallb valid (atleast_1d (las_x las) ++ atleast_1d (las_y las) ++ atleast_1d (las_z las)) = true ->
    map (fun t => option_map columns (read_csv (string_of_list_byte (table_data t))))
        (downloads (trace (upload_path laspy_read pip (Some (Uploaded fname data)) CSV clicked))) =
      [Some (atleast_1d (las_x las), atleast_1d (las_y las), atleast_1d (las_z las))] /\
    (status_code r = 200%N -> looks_like_html r = false -> content r = data ->
     map (fun t => option_map columns (read_csv (string_of_list_byte (table_data t))))
         (downloads (trace (url_try laspy_read r CSV))) =
       [Some (atleast_1d (las_x las), atleast_1d (las_y las), atleast_1d (las_z las))]).
Proof.
  intros laspy_read pip data las fname clicked r Hd Hxy Hyz Hvalid.
  pose proof (mismatched_false _ _ _ Hxy Hyz) as Hm.
  assert (Hback : option_map columns
            (read_csv (string_of_list_byte
               (table_bytes CSV (atleast_1d (las_x las)) (atleast_1d (las_y las))
                  (atleast_1d (las_z las))))) =
          Some (atleast_1d (las_x las), atleast_1d (las_y las), atleast_1d (las_z las))).
  { unfold table_bytes, encode_utf8. rewrite string_of_list_byte_of_string.
    rewrite (to_csv_reads _ _ _ Hvalid). cbn [option_map]. f_equal.
    now apply rows_columns. }
  split.
  - destruct (upload_offers_all_or_nothing laspy_read pip (Uploaded fname data) CSV clicked)
      as [_ H].
    rewrite H. cbn [file_bytes]. rewrite Hd. unfold offered. rewrite Hm.
    cbn [map table_data]. rewrite Hback. reflexivity.
  - intros Hs Hh Hc. subst data.
    destruct (url_try_cases laspy_read r CSV) as [H _].
    rewrite H. unfold accepted. rewrite Hs, Hh, Hd. cbn [N.eqb Pos.eqb negb andb].
    unfold offered. rewrite Hm. cbn [map table_data]. rewrite Hback. reflexivity.
Qed.

Lemma offered_csv_reads_back_witness :
  map (fun t => option_map columns (read_csv (string_of_list_byte (table_data t))))
      (downloads (trace (upload_path (fun _ => inr one_point) None
                           (Some (Uploaded "tile.laz" [])) CSV false))) =
    [Some ([f_12_5], [f_7_25], [f_0])].
Proof.
  exact (proj1 (offered_csv_reads_back (fun _ => inr one_point) None [] one_point
                  "tile.laz" false laz_response eq_refl eq_refl eq_refl eq_refl)).
Defined.

End PrecisionFacts.

(** ** The shape of the tables *)

Module ShapeFacts.

Import Text Numeral Float64 Lib App Spec Cases Observe.
Import TextFacts SplitFacts FixedFacts CsvFacts XyzClaims.

Lemma row_body_fields : forall a b c,
  split ","%char (row_body (a, b, c)) = [csv_cell a; csv_cell b; csv_cell c].
Proof.
  intros a b c.
  change (row_body (a, b, c))
    with (csv_cell a ++ String ","%char (csv_cell b ++ String ","%char (csv_cell c))).
  rewrite !split_app, split_avoids by (apply csv_cell_avoids; reflexivity).
  reflexivity.
Qed.

(** X14. Whatever the numbers are (NaN and the infinities included), the
    texts keep the shape of the table: for N >= 1 points the XYZ text
    splits into N lines of three fields separated by single spaces, and
    the CSV text into the header, N lines of three cells separated by
    commas, and nothing after the last line terminator. *)
Theorem tables_keep_their_shape :
  forall x y z : list float64,
    (1 <= List.length x)%nat ->
    List.length x = List.length y ->
    List.length y = List.length z ->
    map (split " "%char) (split "010"%char (xyz_str (column_stack x y z))) =
      map (fun r => let '(a, b, c) := r in [format_3f a; format_3f b; format_3f c])
          (rows x y z) /\
    map (split ","%char) (split "010"%char (to_csv (DataFrame x y z))) =
      (["X"; "Y"; "Z"] ::
       map (fun r => let '(a, b, c) := r in [csv_cell a; csv_cell b; csv_cell c]) (rows x y z) ++
       [[""]])%list /\
    List.length (rows x y z) = List.length x.
Proof.
  intros x y z Hn Hxy Hyz. split; [|split].
  - assert (Hsplit : split "010"%char (xyz_str (column_stack x y z)) = map xyz_line (rows x y z)).
    { unfold xyz_str, column_stack, LF. apply split_join.
      - intros E. apply (f_equal (@List.length _)) in E.
        rewrite length_map, rows_length in E by assumption. cbn [List.length] in E. lia.
      - apply Forall_forall. intros p Hp. apply in_map_iff in Hp.
        destruct Hp as [r [<- _]]. apply xyz_line_avoids_newline. }
    rewrite Hsplit, map_map. apply map_ext. intros [[a b] c]. apply xyz_line_fields.
  - unfold to_csv, DataFrame, LF.
    change ("X,Y,Z" ++ String "010"%char "" ++ String.concat "" (map csv_row (rows x y z)))
      with ("X,Y,Z" ++ String "010"%char (String.concat "" (map csv_row (rows x y z)))).
    rewrite split_app by reflexivity. rewrite csv_lines.
    cbn [map]. f_equal. rewrite map_app, map_map. cbn [map]. f_equal.
    apply map_ext. intros [[a b] c]. apply row_body_fields.
  - now apply rows_length.
Qed.

Lemma tables_keep_their_shape_witness :
  map (split " "%char)
      (split "010"%char (xyz_str (column_stack [S754_nan; f_1] [f_7_25; f_1] [f_0; S754_infinity true]))) =
    [["nan"; "7.250"; "0.000"]; ["1.000"; "1.000"; "-inf"]] /\
  map (split ","%char)
      (split "010"%char (to_csv (DataFrame [S754_nan; f_1] [f_7_25; f_1] [f_0; S754_infinity true]))) =
    [["X"; "Y"; "Z"]; [""; "7.25"; "0.0"]; ["1.0"; "1.0"; "-inf"]; [""]].
Proof.
  destruct (tables_keep_their_shape [S754_nan; f_1] [f_7_25; f_1] [f_0; S754_infinity true])
    as [H1 [H2 _]]; [cbn; lia|reflexivity|reflexivity|].
  split.
  - rewrite H1. vm_compute. reflexivity.
  - rewrite H2. vm_compute. reflexivity.
Defined.

End ShapeFacts.

(** ** The claim about the XYZ text *)

Module XyzFormat.

Import Text Numeral Float64 Lib App Spec Cases Observe XyzSpec.
Import NumeralFacts SplitFacts FixedFacts RoundFacts NearFacts ReprFacts CsvFacts.
Import XyzClaims PrecisionFacts.

(** Every value is written as [written_3f] says. *)
Lemma format_3f_written : forall v, written_3f v.
Proof.
  intros [s|s| |s m e]; unfold written_3f.
  - destruct s; reflexivity.
  - destruct s; reflexivity.
  - reflexivity.
  - split; [now apply format_3f_three_decimals|].
    unfold format_3f, format_fixed.
    destruct (scaled m e (Z.of_nat 3)) as [a b] eqn:E3.
    destruct (scaled_positive _ _ _ _ _ E3) as [Ha Hb].
    exists (round_half_even a b).
    assert (Hq : 0 <= round_half_even a b) by (apply round_half_even_nonneg; lia).
    split; [exact Hq|]. split; [reflexivity|]. split; [now apply fixed_digits_reads|].
    pose proof (round_half_even_error a b Hb) as Herr.
    set (q := round_half_even a b) in *.
    unfold magnitude. rewrite scaled_zero.
    unfold scaled in E3. change (0 <=? Z.of_nat 3) with true in E3. cbv iota in E3.
    change (10 ^ Z.of_nat 3) with 1000 in E3.
    apply pair_equal_spec in E3. destruct E3 as [Ea Eb].
    set (n := if 0 <=? e then Z.pos m * 2 ^ e else Z.pos m) in *.
    set (d := if 0 <=? e then 1 else 2 ^ (- e)) in *.
    unfold decimal_value. change (0 <=? -3) with false. cbv iota.
    change (Z.to_pos (10 ^ (- -3))) with 1000%positive.
    apply Qabs_Qle_condition. unfold Qle, Qminus, Qplus, Qopp. cbn [Qnum Qden].
    rewrite Pos2Z.inj_mul, Z2Pos.id by lia.
    subst a b. split; lia.
Qed.

(** C1, with what the script does for the values that are not finite.
    The XYZ text of N >= 1 points has one line per point, in the order of
    the points and with the coordinates of that point, the lines joined
    by a newline with nothing before, between or after them; a line is
    the three coordinates separated by single spaces.  A finite
    coordinate is written with exactly three digits after the decimal
    point, as the decimal nearest to it (within half a thousandth), the
    number 1 as 1.000; a coordinate that is NaN or infinite is written
    nan, inf or -inf.  The bytes offered are those of this text. *)
Theorem xyz_export_format :
  forall x y z : list float64,
    (1 <= List.length x)%nat ->
    List.length x = List.length y ->
    List.length y = List.length z ->
    split "010"%char (xyz_str (column_stack x y z)) = map xyz_line (rows x y z) /\
    List.length (split "010"%char (xyz_str (column_stack x y z))) = List.length x /\
    columns (rows x y z) = (x, y, z) /\
    map (split " "%char) (split "010"%char (xyz_str (column_stack x y z))) =
      map (fun r => let '(a, b, c) := r in [format_3f a; format_3f b; format_3f c])
          (rows x y z) /\
    Forall written_3f (x ++ y ++ z) /\
    Forall (fun v => is_finite v = true -> three_decimals (format_3f v) = true) (x ++ y ++ z) /\
    format_3f S754_nan = "nan" /\
    format_3f (S754_infinity false) = "inf" /\
    format_3f (S754_infinity true) = "-inf" /\
    parse "1" = Some f_1 /\ format_3f f_1 = "1.000" /\
    string_of_list_byte (encode_utf8 (xyz_str (column_stack x y z))) =
      xyz_str (column_stack x y z).
Proof.
  intros x y z Hn Hxy Hyz.
  assert (Hsplit : split "010"%char (xyz_str (column_stack x y z)) = map xyz_line (rows x y z)).
  { unfold xyz_str, column_stack, LF. apply split_join.
    - intros E. apply (f_equal (@List.length _)) in E.
      rewrite length_map, rows_length in E by assumption. cbn [List.length] in E. lia.
    - apply Forall_forall. intros p Hp. apply in_map_iff in Hp.
      destruct Hp as [r [<- _]]. apply xyz_line_avoids_newline. }
  rewrite Hsplit.
  split; [reflexivity|].
  split; [rewrite length_map; now apply rows_length|].
  split; [now apply rows_columns|].
  split; [rewrite map_map; apply map_ext; intros [[a b] c]; apply xyz_line_fields|].
  split; [apply Forall_forall; intros v _; apply format_3f_written|].
  split; [apply Forall_forall; intros v _; apply format_3f_three_decimals|].
  split; [reflexivity|]. split; [reflexivity|]. split; [reflexivity|].
  split; [vm_compute; reflexivity|]. split; [vm_compute; reflexivity|].
  unfold encode_utf8. apply string_of_list_byte_of_string.
Qed.

Lemma xyz_export_format_witness :
  split "010"%char
    (xyz_str (column_stack [f_12_5; S754_nan] [f_7_25; f_1] [f_0; S754_infinity true])) =
    ["12.500 7.250 0.000"; "nan 1.000 -inf"] /\
  Forall written_3f ([f_12_5; S754_nan] ++ [f_7_25; f_1] ++ [f_0; S754_infinity true]).
Proof.
  destruct (xyz_export_format [f_12_5; S754_nan] [f_7_25; f_1] [f_0; S754_infinity true])
    as [H [_ [_ [_ [Hw _]]]]]; [cbn; lia|reflexivity|reflexivity|].
  split; [|exact Hw].
  rewrite H. vm_compute. reflexivity.
Defined.

End XyzFormat.
